(** * Graph construction of the 1-D ResNet and VGG19 builders

    A shallow embedding of [keras_applications/resnet_1d_common.py] and
    [keras_applications/vgg19_1d.py].  The Python code builds a Keras graph by
    calling layer constructors one after the other; here the graph is the list
    of layer calls made so far, threaded through a state-and-error monad, and a
    tensor is the handle of the layer call that produced it. *)

From Stdlib Require Import ZArith List String Bool Lia QArith.
From Stdlib Require Import DecimalString.
Import ListNotations.
Local Open Scope string_scope.
Local Open Scope Z_scope.

(** ** Tensors, layers and the graph *)

(** A tensor handle.  [Out n] is the output of the [n]-th layer call of the
    graph (a Keras tensor); [Raw h] is a backend tensor that no layer made. *)
Inductive tensor : Type :=
| Out (n : nat)
| Raw (h : nat).

(** [backend.is_keras_tensor]: true for the output of a layer. *)
Definition is_keras_tensor (t : tensor) : bool :=
  match t with Out _ => true | Raw _ => false end.

Inductive data_format : Type := channels_last | channels_first.

(** Keras lower-cases the padding mode, so ['SAME'] and ['same'] agree. *)
Inductive padding : Type := valid | same.

Definition shape : Type := list (option Z).

(** The layer constructors the two files use, with the arguments they pass.
    Keras defaults, written out at each call below: [Conv1D] has [strides=1],
    [padding='valid'], [activation=None], [use_bias=True],
    [kernel_initializer='glorot_uniform']. *)
Inductive layer_op : Type :=
| Input (shp : shape) (wrapped : option tensor)
| Conv1D (filters kernel_size strides : Z) (pad : padding)
         (activation : option string) (use_bias : bool)
         (kernel_initializer : string)
| BatchNormalization (axis : Z) (epsilon : Q)
| Activation (fn : string)
| Add
| ZeroPadding1D (pad : Z)
| MaxPooling1D (pool_size strides : Z)
| GlobalAveragePooling1D
| GlobalMaxPooling1D
| Flatten
| Dense (units : Z) (activation : option string).

(** One layer call: the layer, its [name=] argument ([None] when the code
    gives none and Keras picks one), and the tensors it is applied to. *)
Record layer : Type := mkLayer {
  l_op : layer_op;
  l_name : option string;
  l_inputs : list tensor
}.

Definition graph : Type := list layer.
Bind Scope list_scope with graph.

(** The exceptions a build can end with, by the place that raises them. *)
Inductive exn : Type :=
| InvalidWeightsArgument (msg : string)
| InvalidInputShape (msg : string)
| LoadWeightsFailure (msg : string).

(** ** The construction monad: the graph as state, exceptions as results *)

Definition M (A : Type) : Type := graph -> (exn + A) * graph.

Definition ret {A} (a : A) : M A := fun g => (inr a, g).

Definition bind {A B} (m : M A) (k : A -> M B) : M B :=
  fun g => match m g with
           | (inl e, g') => (inl e, g')
           | (inr a, g') => k a g'
           end.

Definition raise {A} (e : exn) : M A := fun g => (inl e, g).

Notation "x <- m ;; k" := (bind m (fun x => k))
  (at level 100, m at next level, right associativity).

(** [layers.L(..., name=n)(inputs)]: one more layer call in the graph; the
    result is the new call's output tensor.  Keras can refuse a call (operands
    whose shapes do not fit, an argument out of range); that check is in
    Keras, not in the two files, and a call is recorded here as it is issued.
    A construction is thus the sequence of layer calls the code issues, and
    what is said below of a finished build takes its finishing as a
    hypothesis. *)
Definition call (op : layer_op) (name : option string) (inputs : list tensor)
  : M tensor :=
  fun g => (inr (Out (List.length g)), (g ++ [mkLayer op name inputs])%list).

(** [for i in range(lo, hi): x = body(i, x)]. *)
Fixpoint for_loop (n : nat) (i : Z) (body : Z -> tensor -> M tensor)
         (x : tensor) : M tensor :=
  match n with
  | O => ret x
  | S n' => x' <- body i x ;; for_loop n' (i + 1) body x'
  end.

Definition for_range (lo hi : Z) (body : Z -> tensor -> M tensor)
           (x : tensor) : M tensor :=
  for_loop (Z.to_nat (hi - lo)) lo body x.

(** [pooling == 'avg']: equality of an optional string with a string. *)
Definition option_string_eqb (a b : option string) : bool :=
  match a, b with
  | Some s, Some t => String.eqb s t
  | None, None => true
  | _, _ => false
  end.

(** Python's [str] on an integer. *)
Definition str (i : Z) : string := NilZero.string_of_int (Z.to_int i).

(** [models.Model(inputs, outputs, name=...)], and the weights file loaded
    into it, if any.  The record holds the arguments of the call; the checks
    Keras makes on them (layer names are unique in the graph of a model) are
    not part of it. *)
Record Model : Type := mkModel {
  m_inputs : list tensor;
  m_output : tensor;
  m_name : string;
  m_weights : option string
}.

(** Reading the graph built so far. *)
Definition gets {A} (f : graph -> A) : M A := fun g => (inr (f g), g).

(** The layers a construction adds to the graph it starts from. *)
Definition added {A} (m : M A) (g : graph) : list layer :=
  skipn (List.length g) (snd (m g)).

(** ** resnet_1d_common.py *)

Section Builders.

(** What [get_submodules_from_kwargs] and the imports hand to the builders:
    [backend.image_data_format()], [os.path.exists],
    [imagenet_utils._obtain_input_shape_1d] (an error message or the shape),
    [utils.get_source_inputs] and [Model.load_weights] (an error message or
    the model with the weights loaded). *)
Variable image_data_format : data_format.
Variable path_exists : string -> bool.
Variable obtain_input_shape_1d :
  option shape -> Z -> data_format -> string + shape.
Variable get_source_inputs : graph -> tensor -> list tensor.
Variable load_weights : Model -> string -> string + Model.

Definition bn_axis : Z :=
  match image_data_format with channels_last => 2 | channels_first => 1 end.

(** [epsilon=1.001e-5]. *)
Definition bn_epsilon : Q := (1001 # 100000000)%Q.

Definition relu : layer_op := Activation "relu".

(** [block0]: the basic residual block. *)
Definition block0 (x : tensor) (filters kernel_size stride : Z)
           (conv_shortcut : bool) (kernel_initializer : string)
           (name : string) : M tensor :=
  shortcut <-
    (if conv_shortcut then
       shortcut <- call (Conv1D filters 1 stride same None true kernel_initializer)
                        (Some (name ++ "_0_conv")) [x] ;;
       call (BatchNormalization bn_axis bn_epsilon)
            (Some (name ++ "_0_bn")) [shortcut]
     else ret x) ;;
  x <- call (Conv1D filters kernel_size stride same None true kernel_initializer)
            (Some (name ++ "_1_conv")) [x] ;;
  x <- call (BatchNormalization bn_axis bn_epsilon) (Some (name ++ "_1_bn")) [x] ;;
  x <- call relu (Some (name ++ "_1_relu")) [x] ;;
  x <- call (Conv1D filters kernel_size 1 same None true kernel_initializer)
            (Some (name ++ "_2_conv")) [x] ;;
  x <- call (BatchNormalization bn_axis bn_epsilon) (Some (name ++ "_2_bn")) [x] ;;
  x <- call Add (Some (name ++ "_add")) [shortcut; x] ;;
  call relu (Some (name ++ "_out")) [x].

(** [stack0]; [kernel_size] and [stride] of [block0] are left at their
    defaults 3 and 1 where the code does not pass them. *)
Definition stack0 (x : tensor) (filters blocks stride1 : Z)
           (kernel_initializer : string) (name : string) : M tensor :=
  x <- block0 x filters 3 stride1 true kernel_initializer (name ++ "_block1") ;;
  for_range 2 (blocks + 1)
    (fun i x => block0 x filters 3 1 false kernel_initializer
                       (name ++ "_block" ++ str i)) x.

(** [block1]: the bottleneck residual block. *)
Definition block1 (x : tensor) (filters kernel_size stride : Z)
           (kernel_initializer : string) (conv_shortcut : bool)
           (name : string) : M tensor :=
  shortcut <-
    (if conv_shortcut then
       shortcut <- call (Conv1D (4 * filters) 1 stride valid None true
                                kernel_initializer)
                        (Some (name ++ "_0_conv")) [x] ;;
       call (BatchNormalization bn_axis bn_epsilon)
            (Some (name ++ "_0_bn")) [shortcut]
     else ret x) ;;
  x <- call (Conv1D filters 1 stride valid None true kernel_initializer)
            (Some (name ++ "_1_conv")) [x] ;;
  x <- call (BatchNormalization bn_axis bn_epsilon) (Some (name ++ "_1_bn")) [x] ;;
  x <- call relu (Some (name ++ "_1_relu")) [x] ;;
  x <- call (Conv1D filters kernel_size 1 same None true kernel_initializer)
            (Some (name ++ "_2_conv")) [x] ;;
  x <- call (BatchNormalization bn_axis bn_epsilon) (Some (name ++ "_2_bn")) [x] ;;
  x <- call relu (Some (name ++ "_2_relu")) [x] ;;
  x <- call (Conv1D (4 * filters) 1 1 valid None true kernel_initializer)
            (Some (name ++ "_3_conv")) [x] ;;
  x <- call (BatchNormalization bn_axis bn_epsilon) (Some (name ++ "_3_bn")) [x] ;;
  x <- call Add (Some (name ++ "_add")) [shortcut; x] ;;
  call relu (Some (name ++ "_out")) [x].

Definition stack1 (x : tensor) (filters blocks stride1 : Z)
           (kernel_initializer : string) (name : string) : M tensor :=
  x <- block1 x filters 3 stride1 kernel_initializer true (name ++ "_block1") ;;
  for_range 2 (blocks + 1)
    (fun i x => block1 x filters 3 1 kernel_initializer false
                       (name ++ "_block" ++ str i)) x.

(** [block2]: the pre-activation bottleneck block. *)
Definition block2 (x : tensor) (filters kernel_size stride : Z)
           (kernel_initializer : string) (conv_shortcut : bool)
           (name : string) : M tensor :=
  preact <- call (BatchNormalization bn_axis bn_epsilon)
                 (Some (name ++ "_preact_bn")) [x] ;;
  preact <- call relu (Some (name ++ "_preact_relu")) [preact] ;;
  shortcut <-
    (if conv_shortcut then
       call (Conv1D (4 * filters) 1 stride valid None true kernel_initializer)
            (Some (name ++ "_0_conv")) [preact]
     else if stride >? 1 then call (MaxPooling1D 1 stride) None [x]
     else ret x) ;;
  x <- call (Conv1D filters 1 1 valid None false kernel_initializer)
            (Some (name ++ "_1_conv")) [preact] ;;
  x <- call (BatchNormalization bn_axis bn_epsilon) (Some (name ++ "_1_bn")) [x] ;;
  x <- call relu (Some (name ++ "_1_relu")) [x] ;;
  x <- call (ZeroPadding1D 0) (Some (name ++ "_2_pad")) [x] ;;
  x <- call (Conv1D filters kernel_size stride valid None false kernel_initializer)
            (Some (name ++ "_2_conv")) [x] ;;
  x <- call (BatchNormalization bn_axis bn_epsilon) (Some (name ++ "_2_bn")) [x] ;;
  x <- call relu (Some (name ++ "_2_relu")) [x] ;;
  x <- call (Conv1D (4 * filters) 1 1 valid None true kernel_initializer)
            (Some (name ++ "_3_conv")) [x] ;;
  call Add (Some (name ++ "_out")) [shortcut; x].

(** [stack2].  The blocks of the loop do not pass [kernel_initializer], so
    they get [block2]'s default ["he_uniform"]. *)
Definition stack2 (x : tensor) (filters blocks stride1 : Z)
           (kernel_initializer : string) (name : string) : M tensor :=
  x <- block2 x filters 3 1 kernel_initializer true (name ++ "_block1") ;;
  x <- for_range 2 blocks
         (fun i x => block2 x filters 3 1 "he_uniform" false
                            (name ++ "_block" ++ str i)) x ;;
  block2 x filters 3 stride1 kernel_initializer false
         (name ++ "_block" ++ str blocks).

(** [ResNet].  [preact is False] and [preact is True] are tests on a
    boolean; [**kwargs] only carries the backend modules above. *)
Definition ResNet (stack_fn : tensor -> M tensor) (preact use_bias : bool)
           (model_name : string) (include_top : bool)
           (weights : option string) (input_tensor : option tensor)
           (input_shape : option shape) (pooling : option string)
           (classes : Z) (kernel_initializer : string) : M Model :=
  if negb (match weights with None => true | Some w => path_exists w end)
  then raise (InvalidWeightsArgument
    "The `weights` argument should be either `None` (random initialization), or the path to the weights file to be loaded.")
  else
  input_shape <-
    match obtain_input_shape_1d input_shape 32 image_data_format with
    | inl msg => raise (InvalidInputShape msg)
    | inr shp => ret shp
    end ;;
  img_input <-
    match input_tensor with
    | None => call (Input input_shape None) None []
    | Some t =>
        if negb (is_keras_tensor t)
        then call (Input input_shape (Some t)) None []
        else ret t
    end ;;
  x <- call (ZeroPadding1D 3) (Some "conv1_pad") [img_input] ;;
  x <- call (Conv1D 64 7 2 valid None use_bias kernel_initializer)
            (Some "conv1_conv") [x] ;;
  x <- (if negb preact then
          x <- call (BatchNormalization bn_axis bn_epsilon)
                    (Some "conv1_bn") [x] ;;
          call relu (Some "conv1_relu") [x]
        else ret x) ;;
  x <- call (ZeroPadding1D 1) (Some "pool1_pad") [x] ;;
  x <- call (MaxPooling1D 3 2) (Some "pool1_pool") [x] ;;
  x <- stack_fn x ;;
  x <- (if preact then
          x <- call (BatchNormalization bn_axis bn_epsilon)
                    (Some "post_bn") [x] ;;
          call relu (Some "post_relu") [x]
        else ret x) ;;
  x <- (if include_top then
          x <- call GlobalAveragePooling1D (Some "avg_pool") [x] ;;
          call (Dense classes (Some "softmax")) (Some "probs") [x]
        else if option_string_eqb pooling (Some "avg") then
          call GlobalAveragePooling1D (Some "avg_pool") [x]
        else if option_string_eqb pooling (Some "max") then
          call GlobalMaxPooling1D (Some "max_pool") [x]
        else ret x) ;;
  inputs <-
    match input_tensor with
    | Some t => gets (fun g => get_source_inputs g t)
    | None => ret [img_input]
    end ;;
  let model := mkModel inputs x model_name None in
  match weights with
  | Some w =>
      match load_weights model w with
      | inl msg => raise (LoadWeightsFailure msg)
      | inr model' => ret model'
      end
  | None => ret model
  end.

(** The presets.  Each Python preset defines a local [stack_fn] and passes
    it to [ResNet]; the local function is lifted to a definition of its own
    here.  A stack called without [stride1] gets the default 2. *)
Definition ResNet18_stack_fn (kernel_initializer : string) (x : tensor)
  : M tensor :=
  x <- stack0 x 64 2 1 kernel_initializer "conv2" ;;
  x <- stack0 x 128 2 2 kernel_initializer "conv3" ;;
  x <- stack0 x 256 2 2 kernel_initializer "conv4" ;;
  x <- stack0 x 512 2 2 kernel_initializer "conv5" ;;
  ret x.

Definition ResNet18 (include_top : bool) (weights : option string)
           (input_tensor : option tensor) (input_shape : option shape)
           (pooling : option string) (classes : Z)
           (kernel_initializer : string) : M Model :=
  ResNet (ResNet18_stack_fn kernel_initializer) false true "resnet18"
         include_top weights input_tensor input_shape pooling classes
         kernel_initializer.

Definition ResNet34_stack_fn (kernel_initializer : string) (x : tensor)
  : M tensor :=
  x <- stack0 x 64 3 1 kernel_initializer "conv2" ;;
  x <- stack0 x 128 4 2 kernel_initializer "conv3" ;;
  x <- stack0 x 256 6 2 kernel_initializer "conv4" ;;
  x <- stack0 x 512 3 2 kernel_initializer "conv5" ;;
  ret x.

Definition ResNet34 (include_top : bool) (weights : option string)
           (input_tensor : option tensor) (input_shape : option shape)
           (pooling : option string) (classes : Z)
           (kernel_initializer : string) : M Model :=
  ResNet (ResNet34_stack_fn kernel_initializer) false true "resnet34"
         include_top weights input_tensor input_shape pooling classes
         kernel_initializer.

Definition ResNet50_stack_fn (kernel_initializer : string) (x : tensor)
  : M tensor :=
  x <- stack1 x 64 3 1 kernel_initializer "conv2" ;;
  x <- stack1 x 128 4 2 kernel_initializer "conv3" ;;
  x <- stack1 x 256 6 2 kernel_initializer "conv4" ;;
  x <- stack1 x 512 3 2 kernel_initializer "conv5" ;;
  ret x.

Definition ResNet50 (include_top : bool) (weights : option string)
           (input_tensor : option tensor) (input_shape : option shape)
           (pooling : option string) (classes : Z)
           (kernel_initializer : string) : M Model :=
  ResNet (ResNet50_stack_fn kernel_initializer) false true "resnet50"
         include_top weights input_tensor input_shape pooling classes
         kernel_initializer.

Definition ResNet101_stack_fn (kernel_initializer : string) (x : tensor)
  : M tensor :=
  x <- stack1 x 64 3 1 kernel_initializer "conv2" ;;
  x <- stack1 x 128 4 2 kernel_initializer "conv3" ;;
  x <- stack1 x 256 23 2 kernel_initializer "conv4" ;;
  x <- stack1 x 512 3 2 kernel_initializer "conv5" ;;
  ret x.

Definition ResNet101 (include_top : bool) (weights : option string)
           (input_tensor : option tensor) (input_shape : option shape)
           (pooling : option string) (classes : Z)
           (kernel_initializer : string) : M Model :=
  ResNet (ResNet101_stack_fn kernel_initializer) false true "resnet101"
         include_top weights input_tensor input_shape pooling classes
         kernel_initializer.

Definition ResNet152_stack_fn (kernel_initializer : string) (x : tensor)
  : M tensor :=
  x <- stack1 x 64 3 1 kernel_initializer "conv2" ;;
  x <- stack1 x 128 8 2 kernel_initializer "conv3" ;;
  x <- stack1 x 256 36 2 kernel_initializer "conv4" ;;
  x <- stack1 x 512 3 2 kernel_initializer "conv5" ;;
  ret x.

Definition ResNet152 (include_top : bool) (weights : option string)
           (input_tensor : option tensor) (input_shape : option shape)
           (pooling : option string) (classes : Z)
           (kernel_initializer : string) : M Model :=
  ResNet (ResNet152_stack_fn kernel_initializer) false true "resnet152"
         include_top weights input_tensor input_shape pooling classes
         kernel_initializer.

Definition ResNet50V2_stack_fn (kernel_initializer : string) (x : tensor)
  : M tensor :=
  x <- stack2 x 64 3 2 kernel_initializer "conv2" ;;
  x <- stack2 x 128 4 2 kernel_initializer "conv3" ;;
  x <- stack2 x 256 6 2 kernel_initializer "conv4" ;;
  x <- stack2 x 512 3 1 kernel_initializer "conv5" ;;
  ret x.

Definition ResNet50V2 (include_top : bool) (weights : option string)
           (input_tensor : option tensor) (input_shape : option shape)
           (pooling : option string) (classes : Z)
           (kernel_initializer : string) : M Model :=
  ResNet (ResNet50V2_stack_fn kernel_initializer) true true "resnet50v2"
         include_top weights input_tensor input_shape pooling classes
         kernel_initializer.

Definition ResNet101V2_stack_fn (kernel_initializer : string) (x : tensor)
  : M tensor :=
  x <- stack2 x 64 3 2 kernel_initializer "conv2" ;;
  x <- stack2 x 128 4 2 kernel_initializer "conv3" ;;
  x <- stack2 x 256 23 2 kernel_initializer "conv4" ;;
  x <- stack2 x 512 3 1 kernel_initializer "conv5" ;;
  ret x.

Definition ResNet101V2 (include_top : bool) (weights : option string)
           (input_tensor : option tensor) (input_shape : option shape)
           (pooling : option string) (classes : Z)
           (kernel_initializer : string) : M Model :=
  ResNet (ResNet101V2_stack_fn kernel_initializer) true true "resnet101v2"
         include_top weights input_tensor input_shape pooling classes
         kernel_initializer.

Definition ResNet152V2_stack_fn (kernel_initializer : string) (x : tensor)
  : M tensor :=
  x <- stack2 x 64 3 2 kernel_initializer "conv2" ;;
  x <- stack2 x 128 8 2 kernel_initializer "conv3" ;;
  x <- stack2 x 256 36 2 kernel_initializer "conv4" ;;
  x <- stack2 x 512 3 1 kernel_initializer "conv5" ;;
  ret x.

Definition ResNet152V2 (include_top : bool) (weights : option string)
           (input_tensor : option tensor) (input_shape : option shape)
           (pooling : option string) (classes : Z)
           (kernel_initializer : string) : M Model :=
  ResNet (ResNet152V2_stack_fn kernel_initializer) true true "resnet152v2"
         include_top weights input_tensor input_shape pooling classes
         kernel_initializer.

(** ** vgg19_1d.py *)

(** [Conv1D(filters, 3, activation='relu', padding='same', name=...)], the
    only form of convolution [VGG19] uses. *)
Definition vgg_conv (filters : Z) : layer_op :=
  Conv1D filters 3 1 same (Some "relu") true "glorot_uniform".

Definition VGG19 (include_top : bool) (weights : option string)
           (input_tensor : option tensor) (input_shape : option shape)
           (pooling : option string) (classes : Z) : M Model :=
  if negb (match weights with None => true | Some w => path_exists w end)
  then raise (InvalidWeightsArgument
    "The `weights` argument should be either `None` (random initialization),or the path to the weights file to be loaded.")
  else
  input_shape <-
    match obtain_input_shape_1d input_shape 32 image_data_format with
    | inl msg => raise (InvalidInputShape msg)
    | inr shp => ret shp
    end ;;
  img_input <-
    match input_tensor with
    | None => call (Input input_shape None) None []
    | Some t =>
        if negb (is_keras_tensor t)
        then call (Input input_shape (Some t)) None []
        else ret t
    end ;;
  x <- call (vgg_conv 64) (Some "block1_conv1") [img_input] ;;
  x <- call (vgg_conv 64) (Some "block1_conv2") [x] ;;
  x <- call (MaxPooling1D 2 2) (Some "block1_pool") [x] ;;
  x <- call (vgg_conv 128) (Some "block2_conv1") [x] ;;
  x <- call (vgg_conv 128) (Some "block2_conv2") [x] ;;
  x <- call (MaxPooling1D 2 2) (Some "block2_pool") [x] ;;
  x <- call (vgg_conv 256) (Some "block3_conv1") [x] ;;
  x <- call (vgg_conv 256) (Some "block3_conv2") [x] ;;
  x <- call (vgg_conv 256) (Some "block3_conv3") [x] ;;
  x <- call (vgg_conv 256) (Some "block3_conv4") [x] ;;
  x <- call (MaxPooling1D 2 2) (Some "block3_pool") [x] ;;
  x <- call (vgg_conv 512) (Some "block4_conv1") [x] ;;
  x <- call (vgg_conv 512) (Some "block4_conv2") [x] ;;
  x <- call (vgg_conv 512) (Some "block4_conv3") [x] ;;
  x <- call (vgg_conv 512) (Some "block4_conv4") [x] ;;
  x <- call (MaxPooling1D 2 2) (Some "block4_pool") [x] ;;
  x <- call (vgg_conv 512) (Some "block5_conv1") [x] ;;
  x <- call (vgg_conv 512) (Some "block5_conv2") [x] ;;
  x <- call (vgg_conv 512) (Some "block5_conv3") [x] ;;
  x <- call (vgg_conv 512) (Some "block5_conv4") [x] ;;
  x <- call (MaxPooling1D 2 2) (Some "block5_pool") [x] ;;
  x <- (if include_top then
          x <- call Flatten (Some "flatten") [x] ;;
          x <- call (Dense 4096 (Some "relu")) (Some "fc1") [x] ;;
          x <- call (Dense 4096 (Some "relu")) (Some "fc2") [x] ;;
          call (Dense classes (Some "softmax")) (Some "predictions") [x]
        else if option_string_eqb pooling (Some "avg") then
          call GlobalAveragePooling1D None [x]
        else if option_string_eqb pooling (Some "max") then
          call GlobalMaxPooling1D None [x]
        else ret x) ;;
  inputs <-
    match input_tensor with
    | Some t => gets (fun g => get_source_inputs g t)
    | None => ret [img_input]
    end ;;
  let model := mkModel inputs x "vgg19" None in
  match weights with
  | Some w =>
      match load_weights model w with
      | inl msg => raise (LoadWeightsFailure msg)
      | inr model' => ret model'
      end
  | None => ret model
  end.

(** ** The block calls of a stack *)

Inductive variant : Type := Basic | Bottleneck | PreActBottleneck.

(** The arguments a stack composer chooses for one block; [filters] is the
    stack's own and [kernel_size] is always the default 3. *)
Record block_call : Type := mkCall {
  bc_stride : Z;
  bc_conv_shortcut : bool;
  bc_kernel_initializer : string;
  bc_name : string
}.

Definition block (v : variant) (x : tensor) (filters : Z) (c : block_call)
  : M tensor :=
  match v with
  | Basic =>
      block0 x filters 3 (bc_stride c) (bc_conv_shortcut c)
             (bc_kernel_initializer c) (bc_name c)
  | Bottleneck =>
      block1 x filters 3 (bc_stride c) (bc_kernel_initializer c)
             (bc_conv_shortcut c) (bc_name c)
  | PreActBottleneck =>
      block2 x filters 3 (bc_stride c) (bc_kernel_initializer c)
             (bc_conv_shortcut c) (bc_name c)
  end.

Definition stack (v : variant) : tensor -> Z -> Z -> Z -> string -> string
                                 -> M tensor :=
  match v with
  | Basic => stack0
  | Bottleneck => stack1
  | PreActBottleneck => stack2
  end.

(** Applying blocks one after the other, each to the output of the one
    before. *)
Fixpoint run_blocks (v : variant) (filters : Z) (cs : list block_call)
         (x : tensor) : M tensor :=
  match cs with
  | [] => ret x
  | c :: cs' => x' <- block v x filters c ;; run_blocks v filters cs' x'
  end.

(** The values of [range(lo, hi)]. *)
Definition zrange (lo hi : Z) : list Z :=
  map (fun k => lo + Z.of_nat k) (seq 0 (Z.to_nat (hi - lo))).

(** The block calls a stack composer makes, in order: the first call, the
    calls of the loop, and for [stack2] the call after the loop.
    [stack_runs_calls] below proves that each composer is exactly this
    sequence of calls. *)
Definition stack_calls (v : variant) (blocks stride1 : Z)
           (kernel_initializer name : string) : list block_call :=
  match v with
  | Basic | Bottleneck =>
      mkCall stride1 true kernel_initializer (name ++ "_block1")
      :: map (fun i => mkCall 1 false kernel_initializer
                              (name ++ "_block" ++ str i))
             (zrange 2 (blocks + 1))
  | PreActBottleneck =>
      (mkCall 1 true kernel_initializer (name ++ "_block1")
       :: map (fun i => mkCall 1 false "he_uniform"
                               (name ++ "_block" ++ str i))
              (zrange 2 blocks))
      ++ [mkCall stride1 false kernel_initializer
                 (name ++ "_block" ++ str blocks)]
  end%list.

(** ** Reading residual units off a graph *)

Definition is_add (l : layer) : bool :=
  match l_op l with Add => true | _ => false end.

(** Every residual block ends its two paths in one [Add] layer, and nothing
    else makes one: the residual units of a list of layers are its [Add]
    layers. *)
Definition residual_units (ls : list layer) : list layer := filter is_add ls.

(** The layer call that made a tensor. *)
Definition producer (g : graph) (t : tensor) : option layer :=
  match t with
  | Out n => nth_error g n
  | Raw _ => None
  end.

Definition is_conv (l : layer) : bool :=
  match l_op l with Conv1D _ _ _ _ _ _ _ => true | _ => false end.

Inductive shortcut_kind : Type := Identity | Pooled | Projection.

(** The shortcut of a residual unit is the first operand of its [Add] layer.
    It is a projection when a convolution made it, directly ([block2]) or
    through a batch normalization ([block0], [block1]); it is pooled when a
    max-pooling made it; otherwise the operand is a tensor that existed
    before the block and is passed through as it is. *)
Definition shortcut_of (g : graph) (unit : layer) : shortcut_kind :=
  match l_inputs unit with
  | s :: _ =>
      match producer g s with
      | Some l =>
          match l_op l with
          | Conv1D _ _ _ _ _ _ _ => Projection
          | BatchNormalization _ _ =>
              match l_inputs l with
              | c :: _ =>
                  match producer g c with
                  | Some l' => if is_conv l' then Projection else Identity
                  | None => Identity
                  end
              | [] => Identity
              end
          | MaxPooling1D _ _ => Pooled
          | _ => Identity
          end
      | None => Identity
      end
  | [] => Identity
  end.

(** The shortcut kinds of the residual units a construction adds, read in
    the graph it leaves. *)
Definition shortcut_kinds {A} (m : M A) (g : graph) : list shortcut_kind :=
  map (shortcut_of (snd (m g))) (residual_units (added m g)).

(** [runs m g a new]: started on [g], the construction [m] returns [a]
    without raising and leaves the graph [g ++ new]. *)
Definition runs {A} (m : M A) (g : graph) (a : A) (new : list layer) : Prop :=
  m g = (inr a, (g ++ new)%list).

(** [m] started on the graph [g ++ acc]: [g] is the graph a construction
    was entered with and [acc] the layers added since. *)
Definition run_from {A} (m : M A) (g : graph) (acc : list layer)
  : (exn + A) * graph :=
  m (g ++ acc)%list.

(** The name of a block's [Add] layer. *)
Definition unit_suffix (v : variant) : string :=
  match v with
  | Basic | Bottleneck => "_add"
  | PreActBottleneck => "_out"
  end.

(** The shortcut a block call asks for: a projection with
    [conv_shortcut=True]; otherwise [block2] pools its input when
    [stride > 1], and in every other case the input is the shortcut. *)
Definition expected_kind (v : variant) (c : block_call) : shortcut_kind :=
  if bc_conv_shortcut c then Projection
  else match v with
       | PreActBottleneck => if bc_stride c >? 1 then Pooled else Identity
       | _ => Identity
       end.

(** [Add] and [Activation] layers, the layers a block ends with. *)
Definition block_end (l : layer) : bool :=
  match l_op l with Add | Activation _ => true | _ => false end.

(** [x] is the output of the last layer of [g], and a block made it. *)
Definition follows_block (x : tensor) (g : graph) : Prop :=
  exists g' l, g = (g' ++ [l])%list /\ block_end l = true
               /\ x = Out (List.length g').

(** The residual unit [u], read in graph [g], is the one call [c] asks for. *)
Definition unit_of_call (v : variant) (g : graph) (c : block_call)
           (u : layer) : Prop :=
  l_name u = Some (bc_name c ++ unit_suffix v)
  /\ shortcut_of g u = expected_kind v c.

(** The shortcut kinds the specification announces for a stack of [n]
    blocks: one projection, first for the basic and bottleneck variants and
    last for the pre-activation variant, and identity everywhere else. *)
Definition announced_kinds (v : variant) (n : nat) : list shortcut_kind :=
  match v with
  | Basic | Bottleneck => Projection :: repeat Identity (n - 1)
  | PreActBottleneck => repeat Identity (n - 1) ++ [Projection]
  end%list.

(** ** The parts of a built network *)

(** Layers applied one after the other: the first to [x], each next one to
    the output of the one before; [base] is the number of layers the graph
    has when the first is added. *)
Fixpoint chain (x : tensor) (base : nat) (ops : list (layer_op * option string))
  : list layer :=
  match ops with
  | [] => []
  | (op, name) :: ops' =>
      mkLayer op name [x] :: chain (Out base) (S base) ops'
  end.

(** The output of [chain x base ops]: [x] itself when there is no layer. *)
Fixpoint chain_out (x : tensor) (base : nat)
         (ops : list (layer_op * option string)) : tensor :=
  match ops with
  | [] => x
  | _ :: ops' => chain_out (Out base) (S base) ops'
  end.

(** The [weights] arguments the builders accept. *)
Definition weights_ok (weights : option string) : bool :=
  match weights with None => true | Some w => path_exists w end.

(** The input layer a build adds, if any, and the tensor it starts from. *)
Definition input_layers (input_tensor : option tensor) (shp : shape)
  : list layer :=
  match input_tensor with
  | None => [mkLayer (Input shp None) None []]
  | Some t =>
      if is_keras_tensor t then []
      else [mkLayer (Input shp (Some t)) None []]
  end.

Definition image_input (input_tensor : option tensor) (g : graph) : tensor :=
  match input_tensor with
  | None => Out (List.length g)
  | Some t => if is_keras_tensor t then t else Out (List.length g)
  end.

(** The stem, the tail and the head of a ResNet as the specification lists
    them. *)
Definition stem_ops (preact use_bias : bool) (kernel_initializer : string)
  : list (layer_op * option string) :=
  [(ZeroPadding1D 3, Some "conv1_pad");
   (Conv1D 64 7 2 valid None use_bias kernel_initializer, Some "conv1_conv")]
  ++ (if preact then []
      else [(BatchNormalization bn_axis bn_epsilon, Some "conv1_bn");
            (Activation "relu", Some "conv1_relu")])
  ++ [(ZeroPadding1D 1, Some "pool1_pad");
      (MaxPooling1D 3 2, Some "pool1_pool")].

Definition tail_ops (preact : bool) : list (layer_op * option string) :=
  if preact then [(BatchNormalization bn_axis bn_epsilon, Some "post_bn");
                  (Activation "relu", Some "post_relu")]
  else [].

(** Pooling without the classification head: ['avg'], ['max'], or nothing.
    [ResNet] names the pooling layer, [VGG19] does not. *)
Definition pooling_ops (named : bool) (pooling : option string)
  : list (layer_op * option string) :=
  if option_string_eqb pooling (Some "avg") then
    [(GlobalAveragePooling1D, if named then Some "avg_pool" else None)]
  else if option_string_eqb pooling (Some "max") then
    [(GlobalMaxPooling1D, if named then Some "max_pool" else None)]
  else [].

Definition resnet_head_ops (include_top : bool) (pooling : option string)
           (classes : Z) : list (layer_op * option string) :=
  if include_top then
    [(GlobalAveragePooling1D, Some "avg_pool");
     (Dense classes (Some "softmax"), Some "probs")]
  else pooling_ops true pooling.

Definition vgg_head_ops (include_top : bool) (pooling : option string)
           (classes : Z) : list (layer_op * option string) :=
  if include_top then
    [(Flatten, Some "flatten");
     (Dense 4096 (Some "relu"), Some "fc1");
     (Dense 4096 (Some "relu"), Some "fc2");
     (Dense classes (Some "softmax"), Some "predictions")]
  else pooling_ops false pooling.

(** The five convolutional blocks of VGG19. *)
Definition vgg_body_ops : list (layer_op * option string) :=
  [(vgg_conv 64, Some "block1_conv1"); (vgg_conv 64, Some "block1_conv2");
   (MaxPooling1D 2 2, Some "block1_pool");
   (vgg_conv 128, Some "block2_conv1"); (vgg_conv 128, Some "block2_conv2");
   (MaxPooling1D 2 2, Some "block2_pool");
   (vgg_conv 256, Some "block3_conv1"); (vgg_conv 256, Some "block3_conv2");
   (vgg_conv 256, Some "block3_conv3"); (vgg_conv 256, Some "block3_conv4");
   (MaxPooling1D 2 2, Some "block3_pool");
   (vgg_conv 512, Some "block4_conv1"); (vgg_conv 512, Some "block4_conv2");
   (vgg_conv 512, Some "block4_conv3"); (vgg_conv 512, Some "block4_conv4");
   (MaxPooling1D 2 2, Some "block4_pool");
   (vgg_conv 512, Some "block5_conv1"); (vgg_conv 512, Some "block5_conv2");
   (vgg_conv 512, Some "block5_conv3"); (vgg_conv 512, Some "block5_conv4");
   (MaxPooling1D 2 2, Some "block5_pool")].

(** What a build returns once the graph is complete: the model, with the
    weights loaded when a file is given, or the failure of loading them. *)
Definition loaded (model : Model) (weights : option string) : exn + Model :=
  match weights with
  | Some w =>
      match load_weights model w with
      | inl msg => inl (LoadWeightsFailure msg)
      | inr model' => inr model'
      end
  | None => inr model
  end.

(** The inputs of the model. *)
Definition model_inputs (input_tensor : option tensor) (g : graph)
           (img_input : tensor) : list tensor :=
  match input_tensor with
  | Some t => get_source_inputs g t
  | None => [img_input]
  end.

(** ** The presets as data *)

Inductive preset : Type :=
| R18 | R34 | R50 | R101 | R152 | R50V2 | R101V2 | R152V2.

(** One stage of a preset: the arguments of one stack call. *)
Record stage : Type := mkStage {
  st_filters : Z;
  st_blocks : Z;
  st_stride1 : Z;
  st_name : string
}.

Definition is_v2 (p : preset) : bool :=
  match p with
  | R50V2 | R101V2 | R152V2 => true
  | _ => false
  end.

Definition preset_variant (p : preset) : variant :=
  match p with
  | R18 | R34 => Basic
  | R50 | R101 | R152 => Bottleneck
  | R50V2 | R101V2 | R152V2 => PreActBottleneck
  end.

Definition preset_name (p : preset) : string :=
  match p with
  | R18 => "resnet18" | R34 => "resnet34" | R50 => "resnet50"
  | R101 => "resnet101" | R152 => "resnet152" | R50V2 => "resnet50v2"
  | R101V2 => "resnet101v2" | R152V2 => "resnet152v2"
  end.

(** The stage plan of each preset, as its [stack_fn] lists the stacks;
    [preset_stack_fn_plan] below proves that the [stack_fn] runs this plan. *)
Definition stage_plan (p : preset) : list stage :=
  match p with
  | R18 => [mkStage 64 2 1 "conv2"; mkStage 128 2 2 "conv3";
            mkStage 256 2 2 "conv4"; mkStage 512 2 2 "conv5"]
  | R34 => [mkStage 64 3 1 "conv2"; mkStage 128 4 2 "conv3";
            mkStage 256 6 2 "conv4"; mkStage 512 3 2 "conv5"]
  | R50 => [mkStage 64 3 1 "conv2"; mkStage 128 4 2 "conv3";
            mkStage 256 6 2 "conv4"; mkStage 512 3 2 "conv5"]
  | R101 => [mkStage 64 3 1 "conv2"; mkStage 128 4 2 "conv3";
             mkStage 256 23 2 "conv4"; mkStage 512 3 2 "conv5"]
  | R152 => [mkStage 64 3 1 "conv2"; mkStage 128 8 2 "conv3";
             mkStage 256 36 2 "conv4"; mkStage 512 3 2 "conv5"]
  | R50V2 => [mkStage 64 3 2 "conv2"; mkStage 128 4 2 "conv3";
              mkStage 256 6 2 "conv4"; mkStage 512 3 1 "conv5"]
  | R101V2 => [mkStage 64 3 2 "conv2"; mkStage 128 4 2 "conv3";
               mkStage 256 23 2 "conv4"; mkStage 512 3 1 "conv5"]
  | R152V2 => [mkStage 64 3 2 "conv2"; mkStage 128 8 2 "conv3";
               mkStage 256 36 2 "conv4"; mkStage 512 3 1 "conv5"]
  end.

(** Running the stacks of a plan one after the other. *)
Fixpoint run_stages (v : variant) (kernel_initializer : string)
         (plan : list stage) (x : tensor) : M tensor :=
  match plan with
  | [] => ret x
  | st :: plan' =>
      x' <- stack v x (st_filters st) (st_blocks st) (st_stride1 st)
                  kernel_initializer (st_name st) ;;
      run_stages v kernel_initializer plan' x'
  end.

Definition preset_stack_fn (p : preset) : string -> tensor -> M tensor :=
  match p with
  | R18 => ResNet18_stack_fn | R34 => ResNet34_stack_fn
  | R50 => ResNet50_stack_fn | R101 => ResNet101_stack_fn
  | R152 => ResNet152_stack_fn | R50V2 => ResNet50V2_stack_fn
  | R101V2 => ResNet101V2_stack_fn | R152V2 => ResNet152V2_stack_fn
  end.

Definition preset_build (p : preset)
  : bool -> option string -> option tensor -> option shape -> option string
    -> Z -> string -> M Model :=
  match p with
  | R18 => ResNet18 | R34 => ResNet34 | R50 => ResNet50 | R101 => ResNet101
  | R152 => ResNet152 | R50V2 => ResNet50V2 | R101V2 => ResNet101V2
  | R152V2 => ResNet152V2
  end.

(** The number of residual blocks a plan announces. *)
Definition plan_depth (plan : list stage) : Z :=
  fold_right Z.add 0 (map st_blocks plan).

(** The block calls of a plan, in order, each with the [filters] of its
    stage; [run_stages_plan_calls] below proves that running the stacks of
    the plan is making exactly these calls. *)
Definition plan_calls (v : variant) (kernel_initializer : string)
           (plan : list stage) : list (Z * block_call) :=
  flat_map (fun st => map (pair (st_filters st))
                          (stack_calls v (st_blocks st) (st_stride1 st)
                                       kernel_initializer (st_name st)))
           plan.

(** Applying the blocks of a list of calls one after the other, each to the
    output of the one before. *)
Fixpoint run_plan_calls (v : variant) (cs : list (Z * block_call))
         (x : tensor) : M tensor :=
  match cs with
  | [] => ret x
  | fc :: cs' => x' <- block v x (fst fc) (snd fc) ;; run_plan_calls v cs' x'
  end.

(** The least [blocks] for which a stack makes exactly [blocks] blocks. *)
Definition least_blocks (v : variant) : Z :=
  match v with
  | Basic | Bottleneck => 1
  | PreActBottleneck => 2
  end.

(** ** Layer names *)

(** The names given to the layers of a list, in order; layers created
    without a name are left out. *)
Definition layer_names (ls : list layer) : list string :=
  flat_map (fun l => match l_name l with Some n => [n] | None => [] end) ls.

(** The suffix tokens the specification lists. *)
Definition listed_suffixes : list string :=
  ["0_conv"; "0_bn"; "1_conv"; "1_bn"; "1_relu"; "2_conv"; "2_bn"; "2_relu";
   "3_conv"; "3_bn"; "add"; "out"; "preact_bn"; "preact_relu"].

(** The suffixes of the layers of one block, in the order the block makes
    them. *)
Definition block_suffixes (v : variant) (conv_shortcut : bool) : list string :=
  match v with
  | Basic =>
      (if conv_shortcut then ["0_conv"; "0_bn"] else [])
      ++ ["1_conv"; "1_bn"; "1_relu"; "2_conv"; "2_bn"; "add"; "out"]
  | Bottleneck =>
      (if conv_shortcut then ["0_conv"; "0_bn"] else [])
      ++ ["1_conv"; "1_bn"; "1_relu"; "2_conv"; "2_bn"; "2_relu";
          "3_conv"; "3_bn"; "add"; "out"]
  | PreActBottleneck =>
      ["preact_bn"; "preact_relu"]
      ++ (if conv_shortcut then ["0_conv"] else [])
      ++ ["1_conv"; "1_bn"; "1_relu"; "2_pad"; "2_conv"; "2_bn"; "2_relu";
          "3_conv"; "out"]
  end%list.

(** Every name of [names] is [prefix ++ "_" ++ suffix] for a listed
    suffix. *)
Definition names_listed (prefix : string) (names : list string) : bool :=
  forallb (fun n => existsb (String.eqb n)
                            (map (fun suf => prefix ++ "_" ++ suf)
                                 listed_suffixes))
          names.

(** ** Further observations on a graph *)

(** What the layers are, without their wiring: the layer with its arguments
    and its name. *)
Definition signature (ls : list layer) : list (layer_op * option string) :=
  map (fun l => (l_op l, l_name l)) ls.

(** The [kernel_initializer] of the convolutions of a list of layers. *)
Definition conv_initializers (ls : list layer) : list string :=
  flat_map (fun l => match l_op l with
                     | Conv1D _ _ _ _ _ _ ki => [ki]
                     | _ => []
                     end) ls.

(** No name occurs twice. *)
Fixpoint distinct (names : list string) : bool :=
  match names with
  | [] => true
  | n :: names' => negb (existsb (String.eqb n) names') && distinct names'
  end.

(** The names of a signature, unnamed layers left out. *)
Definition sig_names (sg : list (layer_op * option string)) : list string :=
  flat_map (fun p => match snd p with Some n => [n] | None => [] end) sg.

Definition sig_initializers (sg : list (layer_op * option string))
  : list string :=
  flat_map (fun p => match fst p with
                     | Conv1D _ _ _ _ _ _ ki => [ki]
                     | _ => []
                     end) sg.

(** The signature of the layers of one block call, read on the empty graph
    with a backend tensor as input; [block_signature_any] below proves that
    the block has it on every graph and every input. *)
Definition block_signature (v : variant) (filters : Z) (c : block_call)
  : list (layer_op * option string) :=
  signature (added (block v (Raw 0) filters c) []).

Definition stack_signature (v : variant) (filters blocks stride1 : Z)
           (kernel_initializer name : string)
  : list (layer_op * option string) :=
  flat_map (block_signature v filters)
           (stack_calls v blocks stride1 kernel_initializer name).

Definition plan_signature (v : variant) (kernel_initializer : string)
           (plan : list stage) : list (layer_op * option string) :=
  flat_map (fun st => stack_signature v (st_filters st) (st_blocks st)
                                      (st_stride1 st) kernel_initializer
                                      (st_name st))
           plan.

(** [s] ends with [suffix]. *)
Definition ends_with (suffix s : string) : bool :=
  let n := String.length s in
  let k := String.length suffix in
  (k <=? n)%nat && String.eqb (substring (n - k) k s) suffix.

(** The layers counted in the depth of a network: the convolutions other
    than the shortcut projections, which are the ones named [..._0_conv],
    and the dense layers. *)
Definition is_weighted (p : layer_op * option string) : bool :=
  match fst p with
  | Conv1D _ _ _ _ _ _ _ =>
      match snd p with
      | Some n => negb (ends_with "_0_conv" n)
      | None => true
      end
  | Dense _ _ => true
  | _ => false
  end.

Definition weighted_depth (sg : list (layer_op * option string)) : nat :=
  List.length (filter is_weighted sg).

(** One group of VGG: [convs] convolutions of [filters] filters named
    [block<n>_conv<i>], then a max-pooling named [block<n>_pool]. *)
Definition vgg_group (n filters convs : Z) : list (layer_op * option string) :=
  (map (fun i => (vgg_conv filters,
                  Some ("block" ++ str n ++ "_conv" ++ str i)%string))
       (zrange 1 (convs + 1))
   ++ [(MaxPooling1D 2 2, Some ("block" ++ str n ++ "_pool")%string)])%list.

(** The signature of a ResNet and of a VGG19 that pass the argument
    checks. *)
Definition resnet_signature (v : variant) (plan : list stage)
           (preact use_bias include_top : bool) (it : option tensor)
           (shp : shape) (pooling : option string) (classes : Z)
           (kernel_initializer : string) : list (layer_op * option string) :=
  (signature (input_layers it shp)
   ++ stem_ops preact use_bias kernel_initializer
   ++ plan_signature v kernel_initializer plan
   ++ tail_ops preact
   ++ resnet_head_ops include_top pooling classes)%list.

Definition vgg_signature (include_top : bool) (it : option tensor)
           (shp : shape) (pooling : option string) (classes : Z)
  : list (layer_op * option string) :=
  (signature (input_layers it shp) ++ vgg_body_ops
   ++ vgg_head_ops include_top pooling classes)%list.

(** The output of the last layer of a graph. *)
Definition last_out (g : graph) : tensor := Out (List.length g - 1).

(** Every batch normalization of a signature is on [axis], with the
    epsilon of the code. *)
Definition batch_norms_on (axis : Z) (sg : list (layer_op * option string))
  : bool :=
  forallb (fun p => match fst p with
                    | BatchNormalization a e =>
                        (a =? axis) && Qeq_bool e (1001 # 100000000)
                    | _ => true
                    end) sg.

Definition is_batch_norm (p : layer_op * option string) : bool :=
  match fst p with BatchNormalization _ _ => true | _ => false end.

(** ** A sample environment

    Stand-ins for the backend, used to run the builders on concrete
    arguments: one weights file exists, shapes shorter than the minimum
    size are rejected, a tensor is its own source, and loading weights
    succeeds. *)

Definition sample_path_exists (path : string) : bool :=
  String.eqb path "weights.h5".

Definition sample_obtain_input_shape_1d (input_shape : option shape)
           (min_size : Z) (fmt : data_format) : string + shape :=
  match input_shape with
  | None => inr [None; Some 3]
  | Some (Some n :: rest) =>
      if n <? min_size then inl "Input size must be at least min_size"
      else inr (Some n :: rest)
  | Some shp => inr shp
  end.

Definition sample_get_source_inputs (g : graph) (t : tensor) : list tensor :=
  [t].

Definition sample_load_weights (model : Model) (path : string)
  : string + Model :=
  inr (mkModel (m_inputs model) (m_output model) (m_name model) (Some path)).

(** A graph holding one pooling layer, whose output is [Out 0]. *)
Definition sample_graph : graph :=
  [mkLayer (MaxPooling1D 3 2) (Some "pool1_pool") [Raw 0]].

Definition is_average_pooling (l : layer) : bool :=
  match l_op l with GlobalAveragePooling1D => true | _ => false end.

(** ** Basic facts about constructions *)

Lemma runs_ret {A} (a : A) (g : graph) : runs (ret a) g a [].
Proof. unfold runs, ret. now rewrite app_nil_r. Qed.

Lemma runs_call op name inputs g :
  runs (call op name inputs) g (Out (List.length g)) [mkLayer op name inputs].
Proof. reflexivity. Qed.

Lemma runs_bind {A B} (m : M A) (k : A -> M B) g a b n1 n2 :
  runs m g a n1 -> runs (k a) (g ++ n1)%list b n2 ->
  runs (bind m k) g b (n1 ++ n2)%list.
Proof.
  unfold runs, bind. intros -> ->. now rewrite app_assoc.
Qed.

Lemma added_runs {A} (m : M A) g a new : runs m g a new -> added m g = new.
Proof.
  unfold runs, added. intros ->. simpl.
  induction g as [|l g IH]; simpl; auto.
Qed.

Lemma runs_graph {A} (m : M A) g a new :
  runs m g a new -> snd (m g) = (g ++ new)%list.
Proof. unfold runs. now intros ->. Qed.

Lemma added_graph {A} (m : M A) g new :
  snd (m g) = (g ++ new)%list -> added m g = new.
Proof.
  unfold added. intros ->. induction g as [|l g IH]; cbn; auto.
Qed.

Lemma runs_det {A} (m : M A) g a1 n1 a2 n2 :
  runs m g a1 n1 -> runs m g a2 n2 -> a1 = a2 /\ n1 = n2.
Proof.
  unfold runs. intros -> H. injection H as <- H.
  apply app_inv_head in H. auto.
Qed.

Lemma nth_error_offset {A} (g l : list A) (k : nat) :
  nth_error (g ++ l) (List.length g + k) = nth_error l k.
Proof. induction g as [|a g IH]; simpl; auto. Qed.

Lemma nth_error_offset0 {A} (g l : list A) :
  nth_error (g ++ l) (List.length g) = nth_error l 0.
Proof. rewrite <- (Nat.add_0_r (List.length g)). apply nth_error_offset. Qed.

Lemma residual_units_app l1 l2 :
  residual_units (l1 ++ l2) = (residual_units l1 ++ residual_units l2)%list.
Proof. apply filter_app. Qed.

Lemma map_const_repeat {A B} (b : B) (l : list A) :
  map (fun _ => b) l = repeat b (List.length l).
Proof. induction l; cbn; congruence. Qed.

Lemma length_zrange lo hi : List.length (zrange lo hi) = Z.to_nat (hi - lo).
Proof. unfold zrange. now rewrite length_map, length_seq. Qed.

Lemma option_string_eqb_neq (a b : option string) :
  a <> b -> option_string_eqb a b = false.
Proof.
  destruct a as [x|], b as [y|]; cbn; intros H; try reflexivity.
  - apply String.eqb_neq. congruence.
  - congruence.
Qed.

(** Running a straight-line sequence of layer calls, one call at a time. *)
Lemma run_from_start {A} (m : M A) g : m g = run_from m g [].
Proof. unfold run_from. now rewrite app_nil_r. Qed.

Lemma run_from_call op name inputs g acc :
  run_from (call op name inputs) g acc
  = (inr (Out (List.length g + List.length acc)),
     (g ++ acc ++ [mkLayer op name inputs])%list).
Proof. unfold run_from, call. now rewrite length_app, app_assoc. Qed.

Lemma run_from_ret {A} (a : A) g acc :
  run_from (ret a) g acc = (inr a, (g ++ acc)%list).
Proof. reflexivity. Qed.

Lemma run_from_bind_call {B} op name inputs (k : tensor -> M B) g acc :
  run_from (bind (call op name inputs) k) g acc
  = run_from (k (Out (List.length g + List.length acc))) g
             (acc ++ [mkLayer op name inputs]).
Proof. unfold run_from, bind, call. now rewrite length_app, app_assoc. Qed.

Lemma run_from_bind_ret {A B} (a : A) (k : A -> M B) g acc :
  run_from (bind (ret a) k) g acc = run_from (k a) g acc.
Proof. reflexivity. Qed.

Lemma run_from_bind_bind {A B C} (m : M A) (k1 : A -> M B) (k2 : B -> M C)
      g acc :
  run_from (bind (bind m k1) k2) g acc
  = run_from (bind m (fun a => bind (k1 a) k2)) g acc.
Proof.
  unfold run_from, bind. destruct (m (g ++ acc)%list) as [[e|a] g1]; auto.
Qed.

Lemma run_from_bind_runs {A B} (m : M A) (k : A -> M B) g acc a new :
  runs m (g ++ acc) a new ->
  run_from (bind m k) g acc = run_from (k a) g (acc ++ new).
Proof. unfold run_from, bind, runs. intros ->. now rewrite app_assoc. Qed.

Lemma run_from_bind_gets {A B} (f : graph -> A) (k : A -> M B) g acc :
  run_from (bind (gets f) k) g acc = run_from (k (f (g ++ acc)%list)) g acc.
Proof. reflexivity. Qed.

Ltac run_step :=
  first [ rewrite run_from_bind_bind
        | rewrite run_from_bind_call
        | rewrite run_from_bind_ret
        | rewrite run_from_call
        | rewrite run_from_ret ];
  cbn [app List.length].

Ltac run_calls :=
  cbv beta iota delta [block block0 block1 block2
                         bc_stride bc_conv_shortcut bc_kernel_initializer
                         bc_name];
  match goal with
  | |- ?m ?g = _ => rewrite (run_from_start m g)
  | _ => idtac
  end;
  repeat run_step.

(** ** Blocks *)

Ltac split_last :=
  match goal with
  | |- follows_block _ (?g ++ ?new)%list =>
      exists (g ++ removelast new)%list, (last new (mkLayer Add None []));
      cbn [removelast last];
      split; [rewrite <- ?app_assoc; reflexivity|];
      split; [reflexivity|];
      rewrite ?length_app; cbn [List.length]; f_equal; lia
  end.

Ltac read_shortcut :=
  unfold shortcut_of, producer; cbn [l_inputs];
  rewrite ?nth_error_offset, ?nth_error_offset0; cbn;
  rewrite ?nth_error_offset, ?nth_error_offset0; cbn.

Lemma shortcut_identity (g' : graph) (l u : layer) (rest : list layer)
      (ins : list tensor) :
  block_end l = true ->
  l_inputs u = Out (List.length g') :: ins ->
  shortcut_of ((g' ++ [l]) ++ rest)%list u = Identity.
Proof.
  intros Hl Hu. unfold shortcut_of, producer. rewrite Hu.
  rewrite <- app_assoc, nth_error_offset0. cbn.
  unfold block_end in Hl. destruct (l_op l); try discriminate; reflexivity.
Qed.

(** One block call adds exactly one residual unit, with the shortcut the
    call asks for, and returns the output of the last layer it adds. *)
Lemma block_unit v f c x g :
  bc_conv_shortcut c = true \/ follows_block x g ->
  exists t new u,
    runs (block v x f c) g t new
    /\ residual_units new = [u]
    /\ follows_block t (g ++ new)
    /\ forall rest, unit_of_call v (g ++ new ++ rest) c u.
Proof.
  intros Hin. destruct c as [s cs ki nm]. cbn [bc_conv_shortcut] in Hin.
  unfold unit_of_call, expected_kind, runs.
  cbn [bc_conv_shortcut bc_stride bc_name bc_kernel_initializer].
  destruct cs.
  - (* projection *)
    destruct v; do 3 eexists;
      (split; [run_calls; reflexivity|]);
      (split; [reflexivity|]);
      (split; [split_last|]);
      intros rest; (split; [reflexivity|]); read_shortcut; reflexivity.
  - destruct Hin as [Hin|Hin]; [discriminate|].
    destruct v; [| |destruct (s >? 1) eqn:Hs].
    4: destruct Hin as (g' & l & -> & Hl & ->).
    1, 2: destruct Hin as (g' & l & -> & Hl & ->).
    all: do 3 eexists;
      (split; [run_calls; rewrite ?Hs; repeat run_step; reflexivity|]);
      (split; [reflexivity|]);
      (split; [split_last|]);
      intros rest; (split; [reflexivity|]).
    1, 2, 4: eapply shortcut_identity; eauto; reflexivity.
    read_shortcut. reflexivity.
Qed.

(** C3.  [block2] returns the output of its [Add] layer, the last layer it
    adds, so nothing is applied after the addition.  The first operand of
    the addition is the shortcut: with [conv_shortcut] it is the output of a
    kernel-1 convolution with the given stride applied to the pre-activated
    tensor; without it and with [stride > 1] it is the output of a
    max-pooling of window 1 and that stride applied to the block input; and
    otherwise it is the block input itself. *)
Theorem block2_shortcut_and_output x f k s ki conv_shortcut name g :
  exists pre shortcut main,
    runs (block2 x f k s ki conv_shortcut name) g
         (Out (List.length (g ++ pre)))
         (pre ++ [mkLayer Add (Some (name ++ "_out")) [shortcut; main]])
    /\ nth_error pre 0
       = Some (mkLayer (BatchNormalization bn_axis bn_epsilon)
                       (Some (name ++ "_preact_bn")) [x])
    /\ nth_error pre 1
       = Some (mkLayer (Activation "relu") (Some (name ++ "_preact_relu"))
                       [Out (List.length g)])
    /\ producer (g ++ pre) main
       = Some (mkLayer (Conv1D (4 * f) 1 1 valid None true ki)
                       (Some (name ++ "_3_conv"))
                       [Out (List.length (g ++ pre) - 2)])
    /\ match conv_shortcut, s >? 1 with
       | true, _ =>
           producer (g ++ pre) shortcut
           = Some (mkLayer (Conv1D (4 * f) 1 s valid None true ki)
                           (Some (name ++ "_0_conv"))
                           [Out (List.length g + 1)])
       | false, true =>
           producer (g ++ pre) shortcut
           = Some (mkLayer (MaxPooling1D 1 s) None [x])
       | false, false => shortcut = x
       end.
Proof.
  unfold runs.
  destruct conv_shortcut; [|destruct (s >? 1) eqn:Hs].
  all: match goal with
       | |- context [block2 ?a ?b ?c ?d ?e ?cs ?n ?g] =>
           eassert (E : block2 a b c d e cs n g = (inr _, _))
             by (run_calls; rewrite ?Hs; repeat run_step; reflexivity)
       end.
  all: match type of E with
       | _ = (_, (_ ++ ?L)%list) => exists (removelast L)
       end.
  all: cbn [removelast nth_error app]; rewrite E; clear E.
  all: do 2 eexists.
  all: split; [rewrite length_app; cbn [List.length]; reflexivity|].
  all: rewrite ?Nat.add_0_r; repeat split.
  all: unfold producer; rewrite ?nth_error_offset; try reflexivity.
  all: rewrite length_app; cbn [List.length].
  all: cbn [nth_error]; do 4 f_equal; lia.
Qed.

(** C7, as the code has it.  The names of the layers of a block are the
    block's name, an underscore and a suffix; the suffixes, in order, depend
    only on the variant and on [conv_shortcut].  The suffixes of the basic
    and bottleneck blocks are among the listed ones; those of the
    pre-activation block are the listed ones and ["2_pad"], the name of its
    zero-padding layer, which the list does not have.  (The max-pooling of a
    pre-activation block has no name.) *)
Theorem block_layer_names x f k s ki conv_shortcut name g :
  layer_names (added (block0 x f k s conv_shortcut ki name) g)
  = map (fun suf => name ++ "_" ++ suf) (block_suffixes Basic conv_shortcut)
  /\ layer_names (added (block1 x f k s ki conv_shortcut name) g)
     = map (fun suf => name ++ "_" ++ suf)
           (block_suffixes Bottleneck conv_shortcut)
  /\ layer_names (added (block2 x f k s ki conv_shortcut name) g)
     = map (fun suf => name ++ "_" ++ suf)
           (block_suffixes PreActBottleneck conv_shortcut)
  /\ incl (block_suffixes Basic conv_shortcut) listed_suffixes
  /\ incl (block_suffixes Bottleneck conv_shortcut) listed_suffixes
  /\ incl (block_suffixes PreActBottleneck conv_shortcut)
          ("2_pad" :: listed_suffixes)
  /\ In "2_pad" (block_suffixes PreActBottleneck conv_shortcut)
  /\ ~ In "2_pad" listed_suffixes.
Proof.
  repeat match goal with |- _ /\ _ => split end.
  1, 2, 3: destruct conv_shortcut; [|try destruct (s >? 1) eqn:Hs];
    match goal with
    | |- context [added ?m ?g] =>
        let E := fresh "E" in
        eassert (E : runs m g _ _)
          by (unfold runs; run_calls; rewrite ?Hs; repeat run_step;
              reflexivity);
        rewrite (added_runs _ _ _ _ E); reflexivity
    end.
  1, 2, 3: destruct conv_shortcut; intros a Ha; cbn in Ha |- *;
    repeat (destruct Ha as [<-|Ha]; [tauto|]); contradiction.
  - destruct conv_shortcut; cbn; tauto.
  - cbn. intros H.
    repeat (destruct H as [H|H]; [discriminate|]). contradiction.
Qed.

(** ** Stacks *)

(** A sequence of block calls adds one residual unit per call, in order,
    each with the shortcut its call asks for. *)
Lemma run_blocks_units v f cs : forall x g,
  match cs with
  | [] => True
  | c :: _ => bc_conv_shortcut c = true \/ follows_block x g
  end ->
  exists t new,
    runs (run_blocks v f cs x) g t new
    /\ match cs with
       | [] => t = x /\ new = []
       | _ :: _ => follows_block t (g ++ new)
       end
    /\ forall rest,
         Forall2 (unit_of_call v (g ++ new ++ rest)) cs (residual_units new).
Proof.
  induction cs as [|c cs IH]; intros x g Hin.
  - exists x, []. split; [apply runs_ret|]. split; [auto|]. constructor.
  - destruct (block_unit v f c x g Hin) as (t1 & n1 & u & Hr1 & Hu & Hf1 & Hk1).
    destruct (IH t1 (g ++ n1)%list) as (t2 & n2 & Hr2 & Hf2 & Hk2).
    { destruct cs; auto. }
    exists t2, (n1 ++ n2)%list.
    split; [eapply runs_bind; eauto|].
    split.
    + destruct cs as [|c' cs].
      * destruct Hf2 as [-> ->]. now rewrite app_nil_r.
      * now rewrite app_assoc.
    + intros rest. rewrite residual_units_app, Hu. cbn [app].
      constructor.
      * rewrite <- app_assoc. apply Hk1.
      * specialize (Hk2 rest). now rewrite <- !app_assoc in *.
Qed.

Lemma run_blocks_app v f cs1 cs2 : forall x g,
  run_blocks v f (cs1 ++ cs2) x g
  = bind (run_blocks v f cs1 x) (run_blocks v f cs2) g.
Proof.
  induction cs1 as [|c cs1 IH]; intros x g; cbn [app run_blocks].
  - reflexivity.
  - unfold bind.
    destruct (block v x f c g) as [[e|t] g1]; [reflexivity|].
    rewrite IH. reflexivity.
Qed.

(** The loop of a stack composer is the sequence of its block calls. *)
Lemma for_loop_calls v f (mk : Z -> block_call) cnt : forall i x g,
  for_loop cnt i (fun i x => block v x f (mk i)) x g
  = run_blocks v f (map mk (map (fun k => i + Z.of_nat k) (seq 0 cnt))) x g.
Proof.
  induction cnt as [|cnt IH]; intros i x g.
  - reflexivity.
  - cbn [for_loop seq map run_blocks]. rewrite Z.add_0_r.
    unfold bind.
    destruct (block v x f (mk i) g) as [[e|t] g1]; [reflexivity|].
    rewrite IH.
    replace (map (fun k => i + Z.of_nat k) (seq 1 cnt))
      with (map (fun k => i + 1 + Z.of_nat k) (seq 0 cnt)); [reflexivity|].
    rewrite <- (seq_shift cnt 0), (map_map S).
    apply map_ext. intros k. lia.
Qed.

(** Each stack composer is exactly its sequence of block calls. *)
Lemma stack_runs_calls v x f blocks stride1 ki name g :
  stack v x f blocks stride1 ki name g
  = run_blocks v f (stack_calls v blocks stride1 ki name) x g.
Proof.
  destruct v; cbn [stack stack_calls].
  - unfold stack0, for_range, zrange. cbn [run_blocks block].
    cbn [bc_stride bc_conv_shortcut bc_kernel_initializer bc_name].
    unfold bind at 1 2.
    destruct (block0 _ _ _ _ _ _ _ g) as [[e|t] g1]; [reflexivity|].
    exact (for_loop_calls Basic f
             (fun i => mkCall 1 false ki (name ++ "_block" ++ str i)) _ _ _ _).
  - unfold stack1, for_range, zrange. cbn [run_blocks block].
    cbn [bc_stride bc_conv_shortcut bc_kernel_initializer bc_name].
    unfold bind at 1 2.
    destruct (block1 _ _ _ _ _ _ _ g) as [[e|t] g1]; [reflexivity|].
    exact (for_loop_calls Bottleneck f
             (fun i => mkCall 1 false ki (name ++ "_block" ++ str i)) _ _ _ _).
  - unfold stack2, for_range, zrange.
    rewrite run_blocks_app. cbn [run_blocks block].
    cbn [bc_stride bc_conv_shortcut bc_kernel_initializer bc_name].
    unfold bind.
    destruct (block2 _ _ _ _ _ _ _ g) as [[e|t] g1]; [reflexivity|].
    rewrite (for_loop_calls PreActBottleneck f
               (fun i => mkCall 1 false "he_uniform"
                                (name ++ "_block" ++ str i))).
    destruct (run_blocks _ _ _ t g1) as [[e|t2] g2]; [reflexivity|].
    destruct (block2 _ _ _ _ _ _ _ g2) as [[e|t3] g3]; reflexivity.
Qed.

Lemma units_of_calls v g cs us :
  Forall2 (unit_of_call v g) cs us ->
  map (shortcut_of g) us = map (expected_kind v) cs
  /\ map l_name us = map (fun c => Some (bc_name c ++ unit_suffix v)) cs
  /\ List.length us = List.length cs.
Proof.
  induction 1 as [|c u cs us [Hn Hk] _ (IH1 & IH2 & IH3)]; cbn [map List.length].
  - auto.
  - now rewrite Hn, Hk, IH1, IH2, IH3.
Qed.

(** Every stack runs without raising and adds the residual units of its
    block calls, in order. *)
Lemma stack_units v x f blocks stride1 ki name g :
  exists t new,
    runs (stack v x f blocks stride1 ki name) g t new
    /\ Forall2 (unit_of_call v (g ++ new))
               (stack_calls v blocks stride1 ki name) (residual_units new).
Proof.
  destruct (run_blocks_units v f (stack_calls v blocks stride1 ki name) x g)
    as (t & new & Hr & _ & Hk).
  { destruct v; left; reflexivity. }
  exists t, new. split.
  - unfold runs. rewrite stack_runs_calls. exact Hr.
  - specialize (Hk []). now rewrite app_nil_r in Hk.
Qed.

Lemma stack_calls_kinds v blocks stride1 ki name :
  map (expected_kind v) (stack_calls v blocks stride1 ki name)
  = match v with
    | Basic | Bottleneck =>
        Projection :: repeat Identity (Z.to_nat (blocks - 1))
    | PreActBottleneck =>
        Projection :: repeat Identity (Z.to_nat (blocks - 2))
                   ++ [if stride1 >? 1 then Pooled else Identity]
    end%list.
Proof.
  destruct v; cbn [stack_calls map app]; rewrite ?map_app, map_map;
    cbn [map expected_kind bc_conv_shortcut bc_stride];
    rewrite map_const_repeat, length_zrange; do 3 f_equal; lia.
Qed.

(** C1, as the code has it.  In every stack, of any variant and any depth,
    the first block call is the only one made with [conv_shortcut=True], and
    in the graph the first residual unit is the only one whose shortcut is a
    projection.  The other units of a basic or bottleneck stack take their
    input as shortcut; so do those of a pre-activation stack, except that
    its last unit max-pools the input when [stride1 > 1]. *)
Theorem stack_projects_first_block v x f blocks stride1 ki name g :
  (exists first rest,
      stack_calls v blocks stride1 ki name = first :: rest
      /\ bc_conv_shortcut first = true
      /\ Forall (fun c => bc_conv_shortcut c = false) rest)
  /\ (forall g', stack v x f blocks stride1 ki name g'
                 = run_blocks v f (stack_calls v blocks stride1 ki name) x g')
  /\ shortcut_kinds (stack v x f blocks stride1 ki name) g
     = match v with
       | Basic | Bottleneck =>
           Projection :: repeat Identity (Z.to_nat (blocks - 1))
       | PreActBottleneck =>
           Projection :: repeat Identity (Z.to_nat (blocks - 2))
                      ++ [if stride1 >? 1 then Pooled else Identity]
       end%list.
Proof.
  split; [|split].
  - destruct v; cbn [stack_calls app]; do 2 eexists;
      (split; [reflexivity|]); (split; [reflexivity|]);
      rewrite ?Forall_app, Forall_map; try split;
      try (apply Forall_forall; intros; reflexivity);
      repeat constructor.
  - intros g'. apply stack_runs_calls.
  - destruct (stack_units v x f blocks stride1 ki name g)
      as (t & new & Hr & Hk).
    unfold shortcut_kinds.
    rewrite (added_runs _ _ _ _ Hr), (runs_graph _ _ _ _ Hr).
    destruct (units_of_calls _ _ _ _ Hk) as (-> & _ & _).
    apply stack_calls_kinds.
Qed.

(** C2.  Each stack composer is the sequence of its block calls; in a
    pre-activation stack every call but the last is made with stride 1 and
    the last with [stride1]; in a basic or bottleneck stack the first call
    is made with [stride1] and every later one with stride 1. *)
Theorem stack_stride_placement x f blocks stride1 ki name :
  (forall v g, stack v x f blocks stride1 ki name g
               = run_blocks v f (stack_calls v blocks stride1 ki name) x g)
  /\ map bc_stride (stack_calls PreActBottleneck blocks stride1 ki name)
     = (repeat 1 (S (Z.to_nat (blocks - 2))) ++ [stride1])%list
  /\ map bc_stride (stack_calls Basic blocks stride1 ki name)
     = stride1 :: repeat 1 (Z.to_nat (blocks - 1))
  /\ map bc_stride (stack_calls Bottleneck blocks stride1 ki name)
     = stride1 :: repeat 1 (Z.to_nat (blocks - 1)).
Proof.
  split; [intros v g; apply stack_runs_calls|].
  repeat split; cbn [stack_calls map app repeat]; rewrite ?map_app, map_map;
    cbn [map bc_stride]; rewrite map_const_repeat, length_zrange;
    do 3 f_equal; lia.
Qed.

(** C9.  With [blocks = 1] the pre-activation composer makes two block
    calls, both named [name ++ "_block1"], and the graph gets two residual
    units under one name.  For any [blocks] it adds [max 2 blocks] residual
    units, so it adds exactly [blocks] of them only when [blocks >= 2]. *)
Theorem stack2_single_block_builds_two x f stride1 ki name g :
  stack_calls PreActBottleneck 1 stride1 ki name
  = [mkCall 1 true ki (name ++ "_block1");
     mkCall stride1 false ki (name ++ "_block1")]
  /\ (forall g',
        stack2 x f 1 stride1 ki name g'
        = (x <- block2 x f 3 1 ki true (name ++ "_block1") ;;
           block2 x f 3 stride1 ki false (name ++ "_block1")) g')
  /\ map l_name (residual_units (added (stack2 x f 1 stride1 ki name) g))
     = [Some ((name ++ "_block1") ++ "_out");
        Some ((name ++ "_block1") ++ "_out")]
  /\ forall blocks,
       let units :=
         residual_units (added (stack2 x f blocks stride1 ki name) g) in
       Z.of_nat (List.length units) = Z.max 2 blocks
       /\ (Z.of_nat (List.length units) =? blocks) = (2 <=? blocks).
Proof.
  split; [reflexivity|]. split; [|split].
  - intros g'. unfold stack2, for_range. cbn [Z.sub Z.opp Z.add Z.pos_sub
      Z.to_nat Pos.pred_double for_loop Z.succ_double Z.pred_double Z.double].
    unfold bind, ret.
    destruct (block2 _ _ _ _ _ _ _ g') as [[e|t] g1]; reflexivity.
  - destruct (stack_units PreActBottleneck x f 1 stride1 ki name g)
      as (t & new & Hr & Hk).
    cbn [stack] in Hr. rewrite (added_runs _ _ _ _ Hr).
    destruct (units_of_calls _ _ _ _ Hk) as (_ & -> & _). reflexivity.
  - intros blocks units. subst units.
    destruct (stack_units PreActBottleneck x f blocks stride1 ki name g)
      as (t & new & Hr & Hk).
    cbn [stack] in Hr. rewrite (added_runs _ _ _ _ Hr).
    destruct (units_of_calls _ _ _ _ Hk) as (_ & _ & ->).
    cbn [stack_calls]. rewrite length_app. cbn [List.length].
    rewrite length_map, length_zrange.
    split; [lia|].
    destruct (2 <=? blocks) eqn:Hb; [apply Z.eqb_eq|apply Z.eqb_neq]; lia.
Qed.

(** ** Builds *)

(** Bringing the tensor numbers of two descriptions of a graph to one
    form, [S (... (S (length g)))], before comparing them. *)
Ltac norm_lengths :=
  repeat (rewrite length_app; cbn [List.length]); cbn [List.length];
  repeat match goal with
         | |- context [(List.length ?g + ?n)%nat] =>
             is_var g;
             lazymatch n with
             | List.length _ => fail
             | _ => rewrite (Nat.add_comm (List.length g) n)
             end
         end;
  cbn [Nat.add].

Ltac same_graph :=
  rewrite <- ?app_assoc; cbn [app]; rewrite ?app_nil_r;
  norm_lengths;
  first [ reflexivity
        | repeat first
            [ match goal with |- @eq nat _ _ => lia end
            | progress f_equal ] ].

(** Stepping over the call of an abstract construction [f] whose run [Hr]
    is known, whatever form its arguments have there. *)
Ltac run_with f Hr :=
  match goal with
  | |- context [run_from (bind (f ?X) _) ?g ?acc] =>
      let Hr' := fresh "Hr" in
      match type of Hr with
      | runs _ _ ?t ?S =>
          assert (Hr' : runs (f X) (g ++ acc) t S)
            by (unfold runs in *;
                etransitivity; [|etransitivity; [exact Hr|]];
                f_equal; same_graph);
          rewrite (run_from_bind_runs _ _ _ _ _ _ Hr'); clear Hr'
      end
  end.

(** Loading the weights, or failing to, leaves the graph as it is. *)
Lemma run_from_finish (model : Model) (weights : option string) g acc :
  run_from
    (match weights with
     | Some w =>
         match load_weights model w with
         | inl msg => raise (LoadWeightsFailure msg)
         | inr model' => ret model'
         end
     | None => ret model
     end) g acc
  = (loaded model weights, (g ++ acc)%list).
Proof.
  unfold loaded.
  destruct weights as [w|]; [destruct (load_weights model w)|]; reflexivity.
Qed.

(** The whole of a ResNet build that passes the two argument checks: the
    input layer, the stem, the stacks, the tail and the head, in this
    order, and then the model. *)
Lemma ResNet_run sf preact use_bias nm include_top weights it ishape
      pooling classes ki g shp t S :
  weights_ok weights = true ->
  obtain_input_shape_1d ishape 32 image_data_format = inr shp ->
  let g0 := (g ++ input_layers it shp)%list in
  let img := image_input it g in
  let stem := stem_ops preact use_bias ki in
  let g1 := (g0 ++ chain img (List.length g0) stem)%list in
  runs (sf (chain_out img (List.length g0) stem)) g1 t S ->
  let g2 := (g1 ++ S)%list in
  let g3 := (g2 ++ chain t (List.length g2) (tail_ops preact))%list in
  let x := chain_out t (List.length g2) (tail_ops preact) in
  let head := resnet_head_ops include_top pooling classes in
  let g4 := (g3 ++ chain x (List.length g3) head)%list in
  ResNet sf preact use_bias nm include_top weights it ishape
         pooling classes ki g
  = (loaded (mkModel (model_inputs it g4 img)
                     (chain_out x (List.length g3) head) nm None)
            weights,
     g4).
Proof.
  intros Hw Hs g0 img stem g1 Hr.
  revert Hr. subst g0 img stem g1.
  unfold ResNet.
  change (match weights with None => true | Some w => path_exists w end)
    with (weights_ok weights).
  rewrite Hw. cbn [negb]. rewrite Hs, run_from_start, run_from_bind_ret.
  destruct it as [t0|]; [destruct (is_keras_tensor t0) eqn:Hk|];
  destruct preact.
  all: cbn [input_layers image_input stem_ops tail_ops chain chain_out app negb
            model_inputs].
  all: rewrite ?Hk; cbn [negb app List.length chain chain_out].
  all: intros Hr; repeat run_step.
  all: run_with sf Hr; repeat run_step.
  all: unfold resnet_head_ops, pooling_ops.
  all: destruct include_top;
    [|destruct (option_string_eqb pooling (Some "avg"));
      [|destruct (option_string_eqb pooling (Some "max"))]].
  all: repeat run_step; rewrite ?run_from_bind_gets, run_from_finish.
  all: cbn [chain chain_out]; same_graph.
Qed.

(** The whole of a VGG19 build that passes the two argument checks. *)
Lemma VGG19_run include_top weights it ishape pooling classes g shp :
  weights_ok weights = true ->
  obtain_input_shape_1d ishape 32 image_data_format = inr shp ->
  let g0 := (g ++ input_layers it shp)%list in
  let img := image_input it g in
  let g1 := (g0 ++ chain img (List.length g0) vgg_body_ops)%list in
  let x := chain_out img (List.length g0) vgg_body_ops in
  let head := vgg_head_ops include_top pooling classes in
  let g2 := (g1 ++ chain x (List.length g1) head)%list in
  VGG19 include_top weights it ishape pooling classes g
  = (loaded (mkModel (model_inputs it g2 img)
                     (chain_out x (List.length g1) head) "vgg19" None)
            weights,
     g2).
Proof.
  intros Hw Hs g0 img g1 x head g2. subst g0 img g1 x head g2.
  unfold VGG19.
  change (match weights with None => true | Some w => path_exists w end)
    with (weights_ok weights).
  rewrite Hw. cbn [negb]. rewrite Hs, run_from_start, run_from_bind_ret.
  destruct it as [t0|]; [destruct (is_keras_tensor t0) eqn:Hk|].
  all: cbn [input_layers image_input vgg_body_ops chain chain_out app negb
            model_inputs].
  all: rewrite ?Hk; cbn [negb app List.length chain chain_out].
  all: repeat run_step.
  all: unfold vgg_head_ops, pooling_ops.
  all: destruct include_top;
    [|destruct (option_string_eqb pooling (Some "avg"));
      [|destruct (option_string_eqb pooling (Some "max"))]].
  all: repeat run_step; rewrite ?run_from_bind_gets, run_from_finish.
  all: cbn [chain chain_out]; same_graph.
Qed.

(** A build whose [weights] argument is rejected stops there. *)
Lemma ResNet_rejects sf preact use_bias nm include_top weights it ishape
      pooling classes ki g :
  weights_ok weights = false ->
  exists msg,
    ResNet sf preact use_bias nm include_top weights it ishape pooling
           classes ki g = (inl (InvalidWeightsArgument msg), g).
Proof.
  intros Hw. unfold ResNet.
  change (match weights with None => true | Some w => path_exists w end)
    with (weights_ok weights).
  rewrite Hw. eexists. reflexivity.
Qed.

Lemma VGG19_rejects include_top weights it ishape pooling classes g :
  weights_ok weights = false ->
  exists msg,
    VGG19 include_top weights it ishape pooling classes g
    = (inl (InvalidWeightsArgument msg), g).
Proof.
  intros Hw. unfold VGG19.
  change (match weights with None => true | Some w => path_exists w end)
    with (weights_ok weights).
  rewrite Hw. eexists. reflexivity.
Qed.

(** A build whose input shape is rejected stops with that error. *)
Lemma ResNet_bad_shape sf preact use_bias nm include_top weights it ishape
      pooling classes ki g msg :
  weights_ok weights = true ->
  obtain_input_shape_1d ishape 32 image_data_format = inl msg ->
  ResNet sf preact use_bias nm include_top weights it ishape pooling
         classes ki g = (inl (InvalidInputShape msg), g).
Proof.
  intros Hw Hs. unfold ResNet.
  change (match weights with None => true | Some w => path_exists w end)
    with (weights_ok weights).
  rewrite Hw. cbn [negb]. unfold bind at 1. now rewrite Hs.
Qed.

Lemma VGG19_bad_shape include_top weights it ishape pooling classes g msg :
  weights_ok weights = true ->
  obtain_input_shape_1d ishape 32 image_data_format = inl msg ->
  VGG19 include_top weights it ishape pooling classes g
  = (inl (InvalidInputShape msg), g).
Proof.
  intros Hw Hs. unfold VGG19.
  change (match weights with None => true | Some w => path_exists w end)
    with (weights_ok weights).
  rewrite Hw. cbn [negb]. unfold bind at 1. now rewrite Hs.
Qed.

Lemma loaded_not_rejected model weights msg :
  loaded model weights <> inl (InvalidWeightsArgument msg).
Proof.
  unfold loaded.
  destruct weights as [w|]; [destruct (load_weights model w)|]; discriminate.
Qed.

(** C4.  When [weights] is neither [None] nor an existing path, [ResNet]
    and [VGG19] raise the error for the [weights] argument and the graph is
    the one they were entered with: no input tensor and no layer has been
    made.  When [weights] is [None] or an existing path, neither of them
    raises that error.  The stack function given to [ResNet] is one that
    adds layers and does not raise, as those of the presets are. *)
Theorem weights_checked_before_graph sf preact use_bias nm include_top
        weights it ishape pooling classes ki g :
  (forall x g, exists t new, runs (sf x) g t new) ->
  if weights_ok weights then
    (forall msg,
        fst (ResNet sf preact use_bias nm include_top weights it ishape
                    pooling classes ki g)
        <> inl (InvalidWeightsArgument msg))
    /\ (forall msg,
          fst (VGG19 include_top weights it ishape pooling classes g)
          <> inl (InvalidWeightsArgument msg))
  else
    (exists msg,
        ResNet sf preact use_bias nm include_top weights it ishape
               pooling classes ki g
        = (inl (InvalidWeightsArgument msg), g))
    /\ (exists msg,
          VGG19 include_top weights it ishape pooling classes g
          = (inl (InvalidWeightsArgument msg), g)).
Proof.
  intros Hf. destruct (weights_ok weights) eqn:Hw.
  - destruct (obtain_input_shape_1d ishape 32 image_data_format)
      as [bad|shp] eqn:Hs.
    + split; intros msg.
      * erewrite ResNet_bad_shape by eassumption. discriminate.
      * erewrite VGG19_bad_shape by eassumption. discriminate.
    + split; intros msg.
      * edestruct Hf as (t & S & Hr).
        erewrite ResNet_run by eassumption.
        apply loaded_not_rejected.
      * erewrite VGG19_run by eassumption.
        apply loaded_not_rejected.
  - split; [now apply ResNet_rejects | now apply VGG19_rejects].
Qed.

(** C8.  A ResNet build that passes its argument checks adds, after the
    input layer: zero-padding 3, a convolution of 64 filters, kernel 7 and
    stride 2, then batch normalization and relu only when [preact] is
    false, then zero-padding 1 and max-pooling of window 3 and stride 2;
    then the layers of the stack function; then, only when [preact] is
    true, batch normalization and relu; and then the head. *)
Theorem ResNet_stem_and_tail sf (preact : bool) use_bias nm include_top
        weights it ishape pooling classes ki g shp :
  weights_ok weights = true ->
  obtain_input_shape_1d ishape 32 image_data_format = inr shp ->
  (forall x g, exists t new, runs (sf x) g t new) ->
  let img := image_input it g in
  let inp := input_layers it shp in
  let stem : list (layer_op * option string) :=
    ([(ZeroPadding1D 3, Some "conv1_pad");
      (Conv1D 64 7 2 valid None use_bias ki, Some "conv1_conv")]
     ++ (if preact then []
         else [(BatchNormalization bn_axis bn_epsilon, Some "conv1_bn");
               (Activation "relu", Some "conv1_relu")])
     ++ [(ZeroPadding1D 1, Some "pool1_pad");
         (MaxPooling1D 3 2, Some "pool1_pool")])%list in
  let tail : list (layer_op * option string) :=
    if preact then [(BatchNormalization bn_axis bn_epsilon, Some "post_bn");
                    (Activation "relu", Some "post_relu")]
    else [] in
  let n0 := List.length (g ++ inp) in
  exists t S,
    runs (sf (chain_out img n0 stem)) (g ++ inp ++ chain img n0 stem) t S
    /\ let n1 := List.length (g ++ inp ++ chain img n0 stem ++ S) in
       let n2 := List.length (g ++ inp ++ chain img n0 stem ++ S
                                ++ chain t n1 tail) in
       added (ResNet sf preact use_bias nm include_top weights it ishape
                     pooling classes ki) g
       = (inp ++ chain img n0 stem ++ S ++ chain t n1 tail
              ++ chain (chain_out t n1 tail) n2
                       (resnet_head_ops include_top pooling classes))%list.
Proof.
  intros Hw Hs Hf img inp stem tail n0.
  destruct (Hf (chain_out img n0 stem) (g ++ inp ++ chain img n0 stem)%list)
    as (t & S & Hr).
  exists t, S. split; [exact Hr|]. intros n1 n2.
  apply added_graph.
  rewrite app_assoc in Hr.
  rewrite (ResNet_run sf preact use_bias nm include_top weights it ishape
             pooling classes ki g shp t S Hw Hs Hr).
  cbn [snd]. subst n1 n2 n0. rewrite <- !app_assoc. reflexivity.
Qed.

(** C6, as the code has it.  A build that passes its argument checks adds
    a body that does not depend on [include_top], [pooling] and [classes],
    and then the head, applied to the output of the body.  With
    [include_top] the head of [ResNet] is global average pooling and a
    dense softmax layer of [classes] units, the head of [VGG19] is flatten,
    two dense relu layers of 4096 units and a dense softmax layer of
    [classes] units, and [pooling] changes nothing in what either builder
    does.  Without [include_top] the head of both is global average pooling
    for ['avg'], global max pooling for ['max'], and empty otherwise. *)
Theorem head_of_build sf preact use_bias nm weights it ishape ki g shp :
  weights_ok weights = true ->
  obtain_input_shape_1d ishape 32 image_data_format = inr shp ->
  (forall x g, exists t new, runs (sf x) g t new) ->
  (exists body x, forall include_top pooling classes,
      added (ResNet sf preact use_bias nm include_top weights it ishape
                    pooling classes ki) g
      = (body ++ chain x (List.length (g ++ body))
                       (resnet_head_ops include_top pooling classes))%list)
  /\ (exists body x, forall include_top pooling classes,
        added (VGG19 include_top weights it ishape pooling classes) g
        = (body ++ chain x (List.length (g ++ body))
                         (vgg_head_ops include_top pooling classes))%list)
  /\ (forall pooling classes,
        resnet_head_ops true pooling classes
        = [(GlobalAveragePooling1D, Some "avg_pool");
           (Dense classes (Some "softmax"), Some "probs")]
        /\ vgg_head_ops true pooling classes
           = [(Flatten, Some "flatten");
              (Dense 4096 (Some "relu"), Some "fc1");
              (Dense 4096 (Some "relu"), Some "fc2");
              (Dense classes (Some "softmax"), Some "predictions")])
  /\ (forall p1 p2 classes g',
        ResNet sf preact use_bias nm true weights it ishape p1 classes ki g'
        = ResNet sf preact use_bias nm true weights it ishape p2 classes ki g'
        /\ VGG19 true weights it ishape p1 classes g'
           = VGG19 true weights it ishape p2 classes g')
  /\ (forall classes,
        resnet_head_ops false (Some "avg") classes
        = [(GlobalAveragePooling1D, Some "avg_pool")]
        /\ resnet_head_ops false (Some "max") classes
           = [(GlobalMaxPooling1D, Some "max_pool")]
        /\ vgg_head_ops false (Some "avg") classes
           = [(GlobalAveragePooling1D, None)]
        /\ vgg_head_ops false (Some "max") classes
           = [(GlobalMaxPooling1D, None)])
  /\ (forall pooling classes,
        pooling <> Some "avg" -> pooling <> Some "max" ->
        resnet_head_ops false pooling classes = []
        /\ vgg_head_ops false pooling classes = []).
Proof.
  intros Hw Hs Hf. split; [|split; [|split; [|split; [|split]]]].
  - set (inp := input_layers it shp). set (img := image_input it g).
    set (n0 := List.length (g ++ inp)).
    set (c1 := chain img n0 (stem_ops preact use_bias ki)).
    destruct (Hf (chain_out img n0 (stem_ops preact use_bias ki))
                 ((g ++ inp) ++ c1)%list) as (t & S & Hr).
    set (n1 := List.length (((g ++ inp) ++ c1) ++ S)).
    exists (inp ++ c1 ++ S ++ chain t n1 (tail_ops preact))%list,
           (chain_out t n1 (tail_ops preact)).
    intros include_top pooling classes. apply added_graph.
    rewrite (ResNet_run sf preact use_bias nm include_top weights it ishape
               pooling classes ki g shp t S Hw Hs Hr).
    cbn [snd]. subst n1 c1 n0 img inp. rewrite <- !app_assoc. reflexivity.
  - set (inp := input_layers it shp). set (img := image_input it g).
    set (n0 := List.length (g ++ inp)).
    exists (inp ++ chain img n0 vgg_body_ops)%list,
           (chain_out img n0 vgg_body_ops).
    intros include_top pooling classes. apply added_graph.
    rewrite (VGG19_run include_top weights it ishape pooling classes g shp
               Hw Hs).
    cbn [snd]. subst n0 img inp. rewrite <- !app_assoc. reflexivity.
  - intros pooling classes. split; reflexivity.
  - intros p1 p2 classes g'. split; reflexivity.
  - intros classes. repeat split; reflexivity.
  - intros pooling classes Ha Hm.
    unfold resnet_head_ops, vgg_head_ops, pooling_ops.
    rewrite !(option_string_eqb_neq _ _ Ha), !(option_string_eqb_neq _ _ Hm).
    split; reflexivity.
Qed.

(** ** Presets *)

Lemma preset_stack_fn_plan p ki x g :
  preset_stack_fn p ki x g
  = run_stages (preset_variant p) ki (stage_plan p) x g.
Proof.
  destruct p;
    cbn [preset_stack_fn preset_variant stage_plan run_stages stack
         st_filters st_blocks st_stride1 st_name];
    unfold ResNet18_stack_fn, ResNet34_stack_fn, ResNet50_stack_fn,
      ResNet101_stack_fn, ResNet152_stack_fn, ResNet50V2_stack_fn,
      ResNet101V2_stack_fn, ResNet152V2_stack_fn;
    reflexivity.
Qed.

Lemma preset_build_ResNet p include_top weights it ishape pooling classes ki :
  preset_build p include_top weights it ishape pooling classes ki
  = ResNet (preset_stack_fn p ki) (is_v2 p) true (preset_name p)
           include_top weights it ishape pooling classes ki.
Proof.
  destruct p; cbn [preset_build preset_stack_fn is_v2 preset_name];
    reflexivity.
Qed.

(** The stacks of a plan run without raising and add as many residual
    units as their block calls. *)
Lemma run_stages_units v ki plan : forall x g,
  exists t new,
    runs (run_stages v ki plan x) g t new
    /\ List.length (residual_units new)
       = list_sum
           (map (fun st => List.length
                             (stack_calls v (st_blocks st) (st_stride1 st)
                                          ki (st_name st)))
                plan).
Proof.
  induction plan as [|st plan IH]; intros x g.
  - exists x, []. split; [apply runs_ret|reflexivity].
  - destruct (stack_units v x (st_filters st) (st_blocks st) (st_stride1 st)
                          ki (st_name st) g) as (t1 & n1 & Hr1 & Hk1).
    destruct (IH t1 (g ++ n1)%list) as (t2 & n2 & Hr2 & Hk2).
    exists t2, (n1 ++ n2)%list. split.
    + cbn [run_stages]. eapply runs_bind; eauto.
    + destruct (units_of_calls _ _ _ _ Hk1) as (_ & _ & Hl).
      rewrite residual_units_app, length_app, Hl, Hk2. reflexivity.
Qed.

Lemma preset_stack_fn_runs p ki x g :
  exists t new, runs (preset_stack_fn p ki x) g t new.
Proof.
  destruct (run_stages_units (preset_variant p) ki (stage_plan p) x g)
    as (t & new & Hr & _).
  exists t, new. unfold runs. now rewrite preset_stack_fn_plan.
Qed.

Lemma residual_units_chain x n ops :
  forallb (fun o => negb (is_add (mkLayer (fst o) None []))) ops = true ->
  residual_units (chain x n ops) = [].
Proof.
  revert x n. induction ops as [|[op name] ops IH]; intros x n H.
  - reflexivity.
  - cbn in H. apply andb_prop in H as [H1 H2].
    cbn [chain residual_units filter]. unfold is_add at 1. cbn [l_op].
    unfold is_add in H1. cbn [l_op] in H1.
    destruct op; try discriminate; apply IH; assumption.
Qed.

Lemma residual_units_input it shp : residual_units (input_layers it shp) = [].
Proof.
  unfold input_layers.
  destruct it as [t|]; [destruct (is_keras_tensor t)|]; reflexivity.
Qed.

(** A build that returns a model has passed its two argument checks. *)
Lemma ResNet_runs_checked sf preact use_bias nm include_top weights it ishape
      pooling classes ki g model new :
  runs (ResNet sf preact use_bias nm include_top weights it ishape pooling
               classes ki) g model new ->
  weights_ok weights = true
  /\ exists shp, obtain_input_shape_1d ishape 32 image_data_format = inr shp.
Proof.
  unfold runs. intros H.
  destruct (weights_ok weights) eqn:Hw.
  - split; [reflexivity|].
    destruct (obtain_input_shape_1d ishape 32 image_data_format)
      as [bad|shp] eqn:Hs; [|now exists shp].
    rewrite (ResNet_bad_shape sf preact use_bias nm include_top weights it
               ishape pooling classes ki g bad Hw Hs) in H.
    discriminate.
  - destruct (ResNet_rejects sf preact use_bias nm include_top weights it
                ishape pooling classes ki g Hw) as (msg & E).
    rewrite E in H. discriminate.
Qed.

Lemma VGG19_runs_checked include_top weights it ishape pooling classes g
      model new :
  runs (VGG19 include_top weights it ishape pooling classes) g model new ->
  weights_ok weights = true
  /\ exists shp, obtain_input_shape_1d ishape 32 image_data_format = inr shp.
Proof.
  unfold runs. intros H.
  destruct (weights_ok weights) eqn:Hw.
  - split; [reflexivity|].
    destruct (obtain_input_shape_1d ishape 32 image_data_format)
      as [bad|shp] eqn:Hs; [|now exists shp].
    rewrite (VGG19_bad_shape include_top weights it ishape pooling classes g
               bad Hw Hs) in H.
    discriminate.
  - destruct (VGG19_rejects include_top weights it ishape pooling classes g
                Hw) as (msg & E).
    rewrite E in H. discriminate.
Qed.

(** The calls of a stage, then the calls of the stages after it. *)
Lemma run_plan_calls_app v f cs rest : forall x g,
  run_plan_calls v (map (pair f) cs ++ rest) x g
  = bind (run_blocks v f cs x) (run_plan_calls v rest) g.
Proof.
  induction cs as [|c cs IH]; intros x g;
    cbn [map app run_plan_calls run_blocks fst snd].
  - reflexivity.
  - unfold bind.
    destruct (block v x f c g) as [[e|t] g1]; [reflexivity|].
    rewrite IH. reflexivity.
Qed.

(** Running the stacks of a plan is making its block calls in order. *)
Lemma run_stages_plan_calls v ki plan : forall x g,
  run_stages v ki plan x g = run_plan_calls v (plan_calls v ki plan) x g.
Proof.
  induction plan as [|st plan IH]; intros x g.
  - reflexivity.
  - unfold plan_calls. cbn [run_stages flat_map].
    rewrite run_plan_calls_app. unfold bind.
    rewrite stack_runs_calls.
    destruct (run_blocks v (st_filters st) _ x g) as [[e|t] g1];
      [reflexivity|apply IH].
Qed.

Lemma length_stack_calls v blocks stride1 ki name :
  least_blocks v <= blocks ->
  Z.of_nat (List.length (stack_calls v blocks stride1 ki name)) = blocks.
Proof.
  intros H.
  destruct v; cbn [stack_calls least_blocks] in *;
    rewrite ?length_app; cbn [List.length];
    rewrite length_map, length_zrange; lia.
Qed.

(** A plan whose stages are deep enough makes as many block calls as its
    depths sum to. *)
Lemma length_plan_calls v ki plan :
  Forall (fun st => least_blocks v <= st_blocks st) plan ->
  Z.of_nat (List.length (plan_calls v ki plan)) = plan_depth plan.
Proof.
  induction 1 as [|st plan Hst _ IH].
  - reflexivity.
  - unfold plan_calls, plan_depth in *.
    cbn [flat_map map fold_right].
    rewrite length_app, length_map, Nat2Z.inj_add, IH.
    now rewrite length_stack_calls.
Qed.

Lemma preset_plan_deep p :
  Forall (fun st => least_blocks (preset_variant p) <= st_blocks st)
         (stage_plan p).
Proof.
  destruct p; repeat constructor;
    cbn [least_blocks preset_variant st_blocks]; lia.
Qed.

(** C5.  The [stack_fn] of every preset runs its stage plan, which is to
    make the block calls of the plan one after the other; these calls are
    as many as the depths of the plan sum to, and a preset build that
    returns a model has added that many residual units to the graph.  For
    [ResNet50] the number is 16. *)
Theorem preset_block_count p :
  (forall ki x g,
      preset_stack_fn p ki x g
      = run_stages (preset_variant p) ki (stage_plan p) x g
      /\ preset_stack_fn p ki x g
         = run_plan_calls (preset_variant p)
             (plan_calls (preset_variant p) ki (stage_plan p)) x g)
  /\ (forall ki,
        Z.of_nat
          (List.length (plan_calls (preset_variant p) ki (stage_plan p)))
        = plan_depth (stage_plan p))
  /\ (forall include_top weights it ishape pooling classes ki g model new,
        runs (preset_build p include_top weights it ishape pooling classes
                           ki) g model new ->
        Z.of_nat (List.length (residual_units new))
        = plan_depth (stage_plan p))
  /\ plan_depth (stage_plan R50) = 16.
Proof.
  split; [|split; [|split; [|reflexivity]]].
  - intros ki x g. rewrite preset_stack_fn_plan.
    split; [reflexivity|apply run_stages_plan_calls].
  - intros ki. apply length_plan_calls, preset_plan_deep.
  - intros include_top weights it ishape pooling classes ki g model new H.
    rewrite <- (added_runs _ _ _ _ H).
    rewrite preset_build_ResNet in H |- *.
    destruct (ResNet_runs_checked _ _ _ _ _ _ _ _ _ _ _ _ _ _ H)
      as (Hw & shp & Hs).
    set (inp := input_layers it shp). set (img := image_input it g).
    set (n0 := List.length (g ++ inp)).
    set (stem := stem_ops (is_v2 p) true ki).
    destruct (run_stages_units (preset_variant p) ki (stage_plan p)
                (chain_out img n0 stem) ((g ++ inp) ++ chain img n0 stem)%list)
      as (t & S & Hr & Hn).
    assert (Hr' : runs (preset_stack_fn p ki (chain_out img n0 stem))
                       ((g ++ inp) ++ chain img n0 stem) t S).
    { unfold runs. now rewrite preset_stack_fn_plan. }
    erewrite added_graph.
    2: { rewrite (ResNet_run _ _ _ _ _ _ _ _ _ _ _ _ _ _ _ Hw Hs Hr').
         cbn [snd]. rewrite <- !app_assoc. reflexivity. }
    rewrite !residual_units_app, residual_units_input.
    rewrite !residual_units_chain.
    + rewrite app_nil_r. cbn [app]. rewrite Hn.
      destruct p; reflexivity.
    + unfold resnet_head_ops, pooling_ops.
      destruct include_top;
        [|destruct (option_string_eqb pooling (Some "avg"));
          [|destruct (option_string_eqb pooling (Some "max"))]]; reflexivity.
    + destruct p; reflexivity.
    + destruct p; reflexivity.
Qed.

(** C10.  The [stack_fn] of every preset runs its stage plan, and every
    preset build is [ResNet] on that [stack_fn].  In the plans of the v2
    presets the stages [conv2], [conv3] and [conv4] have [stride1 = 2], the
    default, and [conv5] has [stride1 = 1]; in the plans of the v1 presets
    [conv2] has [stride1 = 1] and the other three stages have 2. *)
Theorem preset_stride_assignment p :
  (forall ki x g, preset_stack_fn p ki x g
                  = run_stages (preset_variant p) ki (stage_plan p) x g)
  /\ (forall include_top weights it ishape pooling classes ki,
        preset_build p include_top weights it ishape pooling classes ki
        = ResNet (preset_stack_fn p ki) (is_v2 p) true (preset_name p)
                 include_top weights it ishape pooling classes ki)
  /\ map (fun st => (st_name st, st_stride1 st)) (stage_plan p)
     = (if is_v2 p
        then [("conv2", 2); ("conv3", 2); ("conv4", 2); ("conv5", 1)]
        else [("conv2", 1); ("conv3", 2); ("conv4", 2); ("conv5", 2)])
  /\ is_v2 p = match p with
               | R50V2 | R101V2 | R152V2 => true
               | R18 | R34 | R50 | R101 | R152 => false
               end.
Proof.
  split; [intros; apply preset_stack_fn_plan|].
  split; [intros; apply preset_build_ResNet|].
  split; destruct p; reflexivity.
Qed.

(** ** Signatures *)

Lemma length_chain x n ops : List.length (chain x n ops) = List.length ops.
Proof.
  revert x n. induction ops as [|[op nm] ops IH]; intros x n; cbn; auto.
Qed.

Lemma signature_app a b :
  signature (a ++ b) = (signature a ++ signature b)%list.
Proof. apply map_app. Qed.

Lemma signature_chain x n ops : signature (chain x n ops) = ops.
Proof.
  revert x n. induction ops as [|[op nm] ops IH]; intros x n; cbn.
  - reflexivity.
  - unfold signature in IH. now rewrite IH.
Qed.

Lemma layer_names_signature ls : layer_names ls = sig_names (signature ls).
Proof.
  unfold layer_names, sig_names, signature.
  induction ls as [|l ls IH]; cbn; [reflexivity|]. now rewrite IH.
Qed.

Lemma conv_initializers_signature ls :
  conv_initializers ls = sig_initializers (signature ls).
Proof.
  unfold conv_initializers, sig_initializers, signature.
  induction ls as [|l ls IH]; cbn; [reflexivity|]. now rewrite IH.
Qed.

(** A block has its signature on every graph and for every input: the
    graph and the input only decide the wiring. *)
Lemma block_signature_any v f c x g :
  exists t new,
    runs (block v x f c) g t new /\ signature new = block_signature v f c.
Proof.
  unfold block_signature. destruct c as [s cs ki nm].
  destruct v, cs; try destruct (s >? 1) eqn:Hs.
  all: do 2 eexists;
    (split; [unfold runs; run_calls; rewrite ?Hs; repeat run_step;
             reflexivity|]).
  all: match goal with
       | |- context [added ?m ?g] =>
           let E := fresh "E" in
           eassert (E : runs m g _ _)
             by (unfold runs; run_calls; rewrite ?Hs; repeat run_step;
                 reflexivity);
           rewrite (added_runs _ _ _ _ E); reflexivity
       end.
Qed.

Lemma run_blocks_signature v f cs : forall x g,
  exists t new,
    runs (run_blocks v f cs x) g t new
    /\ signature new = flat_map (block_signature v f) cs.
Proof.
  induction cs as [|c cs IH]; intros x g.
  - exists x, []. split; [apply runs_ret|reflexivity].
  - destruct (block_signature_any v f c x g) as (t1 & n1 & Hr1 & Hs1).
    destruct (IH t1 (g ++ n1)%list) as (t2 & n2 & Hr2 & Hs2).
    exists t2, (n1 ++ n2)%list. split; [eapply runs_bind; eauto|].
    cbn [flat_map]. now rewrite signature_app, Hs1, Hs2.
Qed.

Lemma stack_signature_any v x f blocks stride1 ki name g :
  exists t new,
    runs (stack v x f blocks stride1 ki name) g t new
    /\ signature new = stack_signature v f blocks stride1 ki name.
Proof.
  destruct (run_blocks_signature v f (stack_calls v blocks stride1 ki name)
              x g) as (t & new & Hr & Hs).
  exists t, new. split; [|exact Hs].
  unfold runs. rewrite stack_runs_calls. exact Hr.
Qed.

Lemma run_stages_signature v ki plan : forall x g,
  exists t new,
    runs (run_stages v ki plan x) g t new
    /\ signature new = plan_signature v ki plan.
Proof.
  induction plan as [|st plan IH]; intros x g.
  - exists x, []. split; [apply runs_ret|reflexivity].
  - destruct (stack_signature_any v x (st_filters st) (st_blocks st)
                (st_stride1 st) ki (st_name st) g) as (t1 & n1 & Hr1 & Hs1).
    destruct (IH t1 (g ++ n1)%list) as (t2 & n2 & Hr2 & Hs2).
    exists t2, (n1 ++ n2)%list. split.
    + cbn [run_stages]. eapply runs_bind; eauto.
    + unfold plan_signature. cbn [flat_map].
      fold (plan_signature v ki plan). now rewrite signature_app, Hs1, Hs2.
Qed.

(** ** Further properties of the stacks *)

Lemma sig_initializers_app a b :
  sig_initializers (a ++ b) = (sig_initializers a ++ sig_initializers b)%list.
Proof. apply flat_map_app. Qed.

Lemma sig_initializers_flat_map {A} (f : A -> list (layer_op * option string))
      (l : list A) :
  sig_initializers (flat_map f l)
  = flat_map (fun a => sig_initializers (f a)) l.
Proof.
  induction l as [|a l IH]; cbn [flat_map]; [reflexivity|].
  now rewrite sig_initializers_app, IH.
Qed.

Lemma flat_map_repeat {A B} (b : B) (k : nat) (l : list A) :
  flat_map (fun _ => repeat b k) l = repeat b (k * List.length l).
Proof.
  induction l as [|a l IH]; cbn [flat_map List.length].
  - now rewrite Nat.mul_0_r.
  - rewrite IH, <- repeat_app. f_equal. lia.
Qed.

(** The convolutions of a block all have the block's [kernel_initializer]. *)
Lemma block_initializers v f c :
  sig_initializers (block_signature v f c)
  = repeat (bc_kernel_initializer c)
           (match v, bc_conv_shortcut c with
            | Basic, true => 3
            | Basic, false => 2
            | _, true => 4
            | _, false => 3
            end).
Proof.
  unfold block_signature. destruct c as [s cs ki nm].
  destruct v, cs; try destruct (s >? 1) eqn:Hs.
  all: match goal with
       | |- context [added ?m ?g] =>
           let E := fresh "E" in
           eassert (E : runs m g _ _)
             by (unfold runs; run_calls; rewrite ?Hs; repeat run_step;
                 reflexivity);
           rewrite (added_runs _ _ _ _ E); reflexivity
       end.
Qed.

(** X6.  Every convolution of a basic or bottleneck stack has the
    [kernel_initializer] the stack was called with.  In a pre-activation
    stack only the four convolutions of the first block and the three of
    the last have it: the blocks in between are made without the argument
    and their convolutions have ["he_uniform"], whatever the caller asked
    for. *)
Theorem stack_conv_initializers x f blocks stride1 ki name g :
  conv_initializers (added (stack0 x f blocks stride1 ki name) g)
  = repeat ki (3 + 2 * Z.to_nat (blocks - 1))
  /\ conv_initializers (added (stack1 x f blocks stride1 ki name) g)
     = repeat ki (4 + 3 * Z.to_nat (blocks - 1))
  /\ conv_initializers (added (stack2 x f blocks stride1 ki name) g)
     = (repeat ki 4 ++ repeat "he_uniform" (3 * Z.to_nat (blocks - 2))
        ++ repeat ki 3)%list.
Proof.
  repeat split.
  - destruct (stack_signature_any Basic x f blocks stride1 ki name g)
      as (t & new & Hr & Hs).
    cbn [stack] in Hr. rewrite (added_runs _ _ _ _ Hr).
    rewrite conv_initializers_signature, Hs.
    unfold stack_signature. rewrite sig_initializers_flat_map.
    cbn [stack_calls flat_map]. rewrite flat_map_concat_map, map_map.
    rewrite <- flat_map_concat_map, !block_initializers.
    cbn [bc_kernel_initializer bc_conv_shortcut].
    erewrite flat_map_ext; [|intros a; apply block_initializers].
    cbn [bc_kernel_initializer bc_conv_shortcut].
    rewrite (flat_map_repeat ki 2), length_zrange, <- repeat_app.
    f_equal. lia.
  - destruct (stack_signature_any Bottleneck x f blocks stride1 ki name g)
      as (t & new & Hr & Hs).
    cbn [stack] in Hr. rewrite (added_runs _ _ _ _ Hr).
    rewrite conv_initializers_signature, Hs.
    unfold stack_signature. rewrite sig_initializers_flat_map.
    cbn [stack_calls flat_map]. rewrite flat_map_concat_map, map_map.
    rewrite <- flat_map_concat_map, !block_initializers.
    cbn [bc_kernel_initializer bc_conv_shortcut].
    erewrite flat_map_ext; [|intros a; apply block_initializers].
    cbn [bc_kernel_initializer bc_conv_shortcut].
    rewrite (flat_map_repeat ki 3), length_zrange, <- repeat_app.
    f_equal. lia.
  - destruct (stack_signature_any PreActBottleneck x f blocks stride1 ki
                                  name g) as (t & new & Hr & Hs).
    cbn [stack] in Hr. rewrite (added_runs _ _ _ _ Hr).
    rewrite conv_initializers_signature, Hs.
    unfold stack_signature. rewrite sig_initializers_flat_map.
    cbn [stack_calls]. rewrite flat_map_app. cbn [flat_map].
    rewrite flat_map_concat_map, map_map.
    rewrite <- flat_map_concat_map, !block_initializers.
    cbn [bc_kernel_initializer bc_conv_shortcut].
    erewrite flat_map_ext; [|intros a; apply block_initializers].
    cbn [bc_kernel_initializer bc_conv_shortcut].
    rewrite (flat_map_repeat "he_uniform" 3), length_zrange, app_nil_r.
    rewrite <- app_assoc. repeat (f_equal; try lia).
Qed.

Lemma zrange_snoc lo hi :
  lo <= hi -> zrange lo (hi + 1) = (zrange lo hi ++ [hi])%list.
Proof.
  intros H. unfold zrange.
  replace (Z.to_nat (hi + 1 - lo)) with (S (Z.to_nat (hi - lo))) by lia.
  rewrite seq_S, map_app. cbn [map Nat.add]. do 2 f_equal. lia.
Qed.

Lemma zrange_cons lo hi :
  lo < hi -> zrange lo hi = lo :: zrange (lo + 1) hi.
Proof.
  intros H. unfold zrange.
  replace (Z.to_nat (hi - lo)) with (S (Z.to_nat (hi - (lo + 1)))) by lia.
  cbn [seq map]. rewrite <- seq_shift, map_map. f_equal; [lia|].
  apply map_ext. intros k. lia.
Qed.

(** X7.  A basic or bottleneck stack of [blocks + 1] blocks is the stack of
    [blocks] blocks followed by one more block, made with stride 1 and
    without projection and numbered [blocks + 1]: a deeper stack only adds
    layers after those of a shallower one.  This needs [blocks >= 1]; the
    stack of no block already has its first block. *)
Theorem stack_grows_by_one_block x f blocks stride1 ki name g :
  1 <= blocks ->
  stack0 x f (blocks + 1) stride1 ki name g
  = (x' <- stack0 x f blocks stride1 ki name ;;
     block0 x' f 3 1 false ki (name ++ "_block" ++ str (blocks + 1))) g
  /\ stack1 x f (blocks + 1) stride1 ki name g
     = (x' <- stack1 x f blocks stride1 ki name ;;
        block1 x' f 3 1 ki false (name ++ "_block" ++ str (blocks + 1))) g.
Proof.
  intros H. split.
  - change (stack0 x f (blocks + 1) stride1 ki name g)
      with (stack Basic x f (blocks + 1) stride1 ki name g).
    rewrite stack_runs_calls. cbn [stack_calls].
    rewrite (zrange_snoc 2 (blocks + 1)) by lia.
    rewrite map_app, app_comm_cons, run_blocks_app.
    unfold bind.
    change (stack0 x f blocks stride1 ki name g)
      with (stack Basic x f blocks stride1 ki name g).
    rewrite stack_runs_calls. cbn [stack_calls].
    destruct (run_blocks Basic f _ x g) as [[e|t] g1]; [reflexivity|].
    cbn [map run_blocks block bc_stride bc_conv_shortcut
         bc_kernel_initializer bc_name].
    unfold bind, ret.
    destruct (block0 _ _ _ _ _ _ _ g1) as [[e|t2] g2]; reflexivity.
  - change (stack1 x f (blocks + 1) stride1 ki name g)
      with (stack Bottleneck x f (blocks + 1) stride1 ki name g).
    rewrite stack_runs_calls. cbn [stack_calls].
    rewrite (zrange_snoc 2 (blocks + 1)) by lia.
    rewrite map_app, app_comm_cons, run_blocks_app.
    unfold bind.
    change (stack1 x f blocks stride1 ki name g)
      with (stack Bottleneck x f blocks stride1 ki name g).
    rewrite stack_runs_calls. cbn [stack_calls].
    destruct (run_blocks Bottleneck f _ x g) as [[e|t] g1]; [reflexivity|].
    cbn [map run_blocks block bc_stride bc_conv_shortcut
         bc_kernel_initializer bc_name].
    unfold bind, ret.
    destruct (block1 _ _ _ _ _ _ _ g1) as [[e|t2] g2]; reflexivity.
Qed.

Lemma stack_call_names v blocks stride1 ki name :
  (match v with PreActBottleneck => 2 | _ => 1 end) <= blocks ->
  map bc_name (stack_calls v blocks stride1 ki name)
  = map (fun i => name ++ "_block" ++ str i) (zrange 1 (blocks + 1)).
Proof.
  intros H. rewrite (zrange_cons 1) by (destruct v; lia).
  change (1 + 1) with 2.
  destruct v; cbn [stack_calls map bc_name]; rewrite ?map_app, ?map_map;
    cbn [map bc_name].
  1, 2: reflexivity.
  rewrite (zrange_snoc 2 blocks) by lia. rewrite map_app.
  cbn [map bc_name app]. rewrite ?map_map. reflexivity.
Qed.

(** X8.  The residual units of a stack are named after its blocks, numbered
    from 1 to [blocks] in the order they are made, for a basic or
    bottleneck stack of at least one block and a pre-activation stack of at
    least two. *)
Theorem stack_units_numbered v x f blocks stride1 ki name g :
  (match v with PreActBottleneck => 2 | _ => 1 end) <= blocks ->
  map l_name (residual_units (added (stack v x f blocks stride1 ki name) g))
  = map (fun i => Some ((name ++ "_block" ++ str i) ++ unit_suffix v))
        (zrange 1 (blocks + 1)).
Proof.
  intros H.
  destruct (stack_units v x f blocks stride1 ki name g)
    as (t & new & Hr & Hk).
  rewrite (added_runs _ _ _ _ Hr).
  destruct (units_of_calls _ _ _ _ Hk) as (_ & -> & _).
  rewrite <- (map_map bc_name (fun n => Some (n ++ unit_suffix v))).
  rewrite stack_call_names by assumption. now rewrite map_map.
Qed.

(** X9.  A basic or bottleneck stack always makes its first block: it adds
    [max 1 blocks] residual units, one for [blocks = 0] and for a negative
    [blocks] too. *)
Theorem stack_first_block_always_made x f blocks stride1 ki name g :
  Z.of_nat (List.length
              (residual_units (added (stack0 x f blocks stride1 ki name) g)))
  = Z.max 1 blocks
  /\ Z.of_nat (List.length
                 (residual_units
                    (added (stack1 x f blocks stride1 ki name) g)))
     = Z.max 1 blocks.
Proof.
  split.
  - destruct (stack_units Basic x f blocks stride1 ki name g)
      as (t & new & Hr & Hk).
    cbn [stack] in Hr. rewrite (added_runs _ _ _ _ Hr).
    destruct (units_of_calls _ _ _ _ Hk) as (_ & _ & ->).
    cbn [stack_calls List.length]. rewrite length_map, length_zrange. lia.
  - destruct (stack_units Bottleneck x f blocks stride1 ki name g)
      as (t & new & Hr & Hk).
    cbn [stack] in Hr. rewrite (added_runs _ _ _ _ Hr).
    destruct (units_of_calls _ _ _ _ Hk) as (_ & _ & ->).
    cbn [stack_calls List.length]. rewrite length_map, length_zrange. lia.
Qed.

(** ** Further properties of the builds *)

Lemma added_nil {A} (m : M A) g : snd (m g) = g -> added m g = [].
Proof. intros H. apply added_graph. now rewrite app_nil_r. Qed.

(** The signature of every preset build, whatever its arguments. *)
Lemma preset_build_signature p include_top weights it ishape pooling classes
      ki g :
  signature (added (preset_build p include_top weights it ishape pooling
                                 classes ki) g)
  = if weights_ok weights then
      match obtain_input_shape_1d ishape 32 image_data_format with
      | inl _ => []
      | inr shp =>
          resnet_signature (preset_variant p) (stage_plan p) (is_v2 p) true
                           include_top it shp pooling classes ki
      end
    else [].
Proof.
  rewrite preset_build_ResNet.
  destruct (weights_ok weights) eqn:Hw.
  2: { destruct (ResNet_rejects (preset_stack_fn p ki) (is_v2 p) true
                   (preset_name p) include_top weights it ishape pooling
                   classes ki g Hw) as (msg & E).
       rewrite added_nil; [reflexivity|now rewrite E]. }
  destruct (obtain_input_shape_1d ishape 32 image_data_format)
    as [bad|shp] eqn:Hs.
  { rewrite added_nil; [reflexivity|].
    now rewrite (ResNet_bad_shape _ _ _ _ _ _ _ _ _ _ _ _ bad Hw Hs). }
  set (inp := input_layers it shp). set (img := image_input it g).
  set (n0 := List.length (g ++ inp)).
  set (stem := stem_ops (is_v2 p) true ki).
  destruct (run_stages_signature (preset_variant p) ki (stage_plan p)
              (chain_out img n0 stem) ((g ++ inp) ++ chain img n0 stem)%list)
    as (t & S & Hr & HS).
  assert (Hr' : runs (preset_stack_fn p ki (chain_out img n0 stem))
                     ((g ++ inp) ++ chain img n0 stem) t S).
  { unfold runs. now rewrite preset_stack_fn_plan. }
  erewrite added_graph.
  2: { rewrite (ResNet_run _ _ _ _ _ _ _ _ _ _ _ _ _ _ _ Hw Hs Hr').
       cbn [snd]. rewrite <- !app_assoc. reflexivity. }
  rewrite !signature_app, !signature_chain, HS. reflexivity.
Qed.

Lemma VGG19_signature include_top weights it ishape pooling classes g :
  signature (added (VGG19 include_top weights it ishape pooling classes) g)
  = if weights_ok weights then
      match obtain_input_shape_1d ishape 32 image_data_format with
      | inl _ => []
      | inr shp => vgg_signature include_top it shp pooling classes
      end
    else [].
Proof.
  destruct (weights_ok weights) eqn:Hw.
  2: { destruct (VGG19_rejects include_top weights it ishape pooling classes
                   g Hw) as (msg & E).
       rewrite added_nil; [reflexivity|now rewrite E]. }
  destruct (obtain_input_shape_1d ishape 32 image_data_format)
    as [bad|shp] eqn:Hs.
  { rewrite added_nil; [reflexivity|].
    now rewrite (VGG19_bad_shape _ _ _ _ _ _ _ bad Hw Hs). }
  erewrite added_graph.
  2: { rewrite (VGG19_run _ _ _ _ _ _ _ _ Hw Hs).
       cbn [snd]. rewrite <- !app_assoc. reflexivity. }
  rewrite !signature_app, !signature_chain. reflexivity.
Qed.

Lemma sig_names_app a b :
  sig_names (a ++ b) = (sig_names a ++ sig_names b)%list.
Proof. apply flat_map_app. Qed.

Lemma input_layers_names it shp :
  sig_names (signature (input_layers it shp)) = [].
Proof.
  unfold input_layers.
  destruct it as [t|]; [destruct (is_keras_tensor t)|]; reflexivity.
Qed.

(** X11.  In what a preset build or a [VGG19] build adds, whatever its
    arguments, no layer name occurs twice. *)
Theorem build_names_distinct p include_top weights it ishape pooling classes
        ki g :
  distinct (layer_names
              (added (preset_build p include_top weights it ishape pooling
                                   classes ki) g)) = true
  /\ distinct (layer_names
                 (added (VGG19 include_top weights it ishape pooling classes)
                        g)) = true.
Proof.
  rewrite !layer_names_signature, preset_build_signature, VGG19_signature.
  destruct (weights_ok weights); [|split; reflexivity].
  destruct (obtain_input_shape_1d ishape 32 image_data_format) as [bad|shp];
    [split; reflexivity|].
  unfold resnet_signature, vgg_signature.
  rewrite !(sig_names_app (signature (input_layers it shp))),
    input_layers_names.
  cbn [app]. unfold resnet_head_ops, vgg_head_ops, pooling_ops.
  destruct include_top;
    [|destruct (option_string_eqb pooling (Some "avg"));
      [|destruct (option_string_eqb pooling (Some "max"))]].
  all: split; [destruct p|]; vm_compute; reflexivity.
Qed.

Lemma weighted_depth_app a b :
  weighted_depth (a ++ b) = (weighted_depth a + weighted_depth b)%nat.
Proof. unfold weighted_depth. now rewrite filter_app, length_app. Qed.

Lemma input_layers_depth it shp :
  weighted_depth (signature (input_layers it shp)) = 0%nat.
Proof.
  unfold input_layers.
  destruct it as [t|]; [destruct (is_keras_tensor t)|]; reflexivity.
Qed.

(** X12.  The number in the name of a model is its depth: a preset build
    with its classification head that returns a model has added as many
    convolutions outside the shortcut projections, plus its dense layer, as
    the name the preset gives its model says, and a [VGG19] build with its
    head that returns a model has added 19 convolutions and dense layers. *)
Theorem model_name_is_depth p weights it ishape pooling classes ki g model
        new :
  (runs (preset_build p true weights it ishape pooling classes ki) g model
        new ->
   preset_name p
   = "resnet" ++ str (Z.of_nat (weighted_depth (signature new)))
              ++ (if is_v2 p then "v2" else ""))
  /\ (runs (VGG19 true weights it ishape pooling classes) g model new ->
      "vgg19" = "vgg" ++ str (Z.of_nat (weighted_depth (signature new)))).
Proof.
  split; intros H; rewrite <- (added_runs _ _ _ _ H).
  - rewrite preset_build_ResNet in H.
    destruct (ResNet_runs_checked _ _ _ _ _ _ _ _ _ _ _ _ _ _ H)
      as (Hw & shp & Hs).
    rewrite preset_build_signature, Hw, Hs. unfold resnet_signature.
    rewrite !(weighted_depth_app (signature (input_layers it shp))),
      input_layers_depth.
    cbn [Nat.add]. destruct p; vm_compute; reflexivity.
  - destruct (VGG19_runs_checked _ _ _ _ _ _ _ _ _ H) as (Hw & shp & Hs).
    rewrite VGG19_signature, Hw, Hs. unfold vgg_signature.
    rewrite !(weighted_depth_app (signature (input_layers it shp))),
      input_layers_depth.
    cbn [Nat.add]. vm_compute. reflexivity.
Qed.

Lemma chain_app ops1 ops2 : forall x n,
  chain x n (ops1 ++ ops2)
  = (chain x n ops1
     ++ chain (chain_out x n ops1) (n + List.length ops1) ops2)%list.
Proof.
  induction ops1 as [|[op nm] ops1 IH]; intros x n; cbn [app chain chain_out
    List.length].
  - now rewrite Nat.add_0_r.
  - rewrite IH. do 3 f_equal. lia.
Qed.

(** X13.  The layers of [VGG19], written out one by one in the code, are
    five groups of convolutions of kernel 3 with relu and same padding,
    each closed by a max-pooling of window 2 and stride 2: two convolutions
    of 64 filters, two of 128, four of 256, four of 512 and four of 512,
    named [block<n>_conv<i>] and [block<n>_pool]; with the head they form
    one chain from the input, each layer applied to the output of the one
    before. *)
Theorem VGG19_is_five_groups include_top weights it ishape pooling classes g
        shp :
  weights_ok weights = true ->
  obtain_input_shape_1d ishape 32 image_data_format = inr shp ->
  added (VGG19 include_top weights it ishape pooling classes) g
  = (input_layers it shp
     ++ chain (image_input it g) (List.length (g ++ input_layers it shp))
              (vgg_group 1 64 2 ++ vgg_group 2 128 2 ++ vgg_group 3 256 4
               ++ vgg_group 4 512 4 ++ vgg_group 5 512 4
               ++ vgg_head_ops include_top pooling classes))%list.
Proof.
  intros Hw Hs. apply added_graph.
  rewrite (VGG19_run _ _ _ _ _ _ _ _ Hw Hs). cbn [snd].
  change (vgg_group 1 64 2 ++ vgg_group 2 128 2 ++ vgg_group 3 256 4
          ++ vgg_group 4 512 4 ++ vgg_group 5 512 4
          ++ vgg_head_ops include_top pooling classes)%list
    with (vgg_body_ops ++ vgg_head_ops include_top pooling classes)%list.
  rewrite chain_app, <- !app_assoc, !length_app, length_chain.
  now rewrite Nat.add_assoc.
Qed.

Lemma follows_block_last t g :
  follows_block t g -> t = last_out g /\ g <> [].
Proof.
  intros (g' & l & -> & _ & ->). unfold last_out. rewrite length_app.
  cbn [List.length]. split; [f_equal; lia|]. now destruct g'.
Qed.

Lemma stack_follows v x f blocks stride1 ki name g :
  exists t new,
    runs (stack v x f blocks stride1 ki name) g t new
    /\ follows_block t (g ++ new).
Proof.
  destruct (run_blocks_units v f (stack_calls v blocks stride1 ki name) x g)
    as (t & new & Hr & Hf & _).
  { destruct v; left; reflexivity. }
  exists t, new. split.
  - unfold runs. rewrite stack_runs_calls. exact Hr.
  - destruct v; exact Hf.
Qed.

Lemma run_stages_follows v ki plan : forall x g,
  plan <> [] ->
  exists t new,
    runs (run_stages v ki plan x) g t new /\ follows_block t (g ++ new).
Proof.
  induction plan as [|st plan IH]; intros x g Hp; [congruence|].
  destruct (stack_follows v x (st_filters st) (st_blocks st) (st_stride1 st)
                          ki (st_name st) g) as (t1 & n1 & Hr1 & Hf1).
  destruct plan as [|st' plan].
  - exists t1, n1. split; [|exact Hf1].
    cbn [run_stages]. rewrite <- (app_nil_r n1).
    eapply runs_bind; [exact Hr1|apply runs_ret].
  - destruct (IH t1 (g ++ n1)%list) as (t2 & n2 & Hr2 & Hf2); [discriminate|].
    exists t2, (n1 ++ n2)%list. split.
    + change (run_stages v ki (st :: st' :: plan) x)
        with (bind (stack v x (st_filters st) (st_blocks st) (st_stride1 st)
                          ki (st_name st))
                   (run_stages v ki (st' :: plan))).
      eapply runs_bind; eauto.
    + now rewrite app_assoc.
Qed.

Lemma chain_out_last ops : forall x g,
  g <> [] -> x = last_out g ->
  chain_out x (List.length g) ops
  = last_out (g ++ chain x (List.length g) ops).
Proof.
  induction ops as [|[op nm] ops IH]; intros x g Hg Hx.
  - cbn. now rewrite app_nil_r.
  - cbn [chain chain_out].
    specialize (IH (Out (List.length g)) (g ++ [mkLayer op nm [x]])%list).
    rewrite length_app, Nat.add_1_r, <- app_assoc in IH. apply IH.
    + now destruct g.
    + unfold last_out. rewrite length_app. cbn. f_equal. lia.
Qed.

Lemma chain_out_nonempty ops : forall x n,
  ops <> [] -> chain_out x n ops = Out (n + List.length ops - 1).
Proof.
  induction ops as [|o ops IH]; intros x n H; [congruence|].
  cbn [chain_out List.length]. destruct ops as [|o' ops].
  - cbn. f_equal. lia.
  - rewrite IH by discriminate. cbn [List.length]. f_equal. lia.
Qed.

Lemma preset_plan_nonempty p : stage_plan p <> [].
Proof. destruct p; discriminate. Qed.

(** X14.  The weights are loaded into the finished model: when a build
    without weights returns a model, the same build given an existing
    weights file makes the same graph and returns what [load_weights] makes
    of that model.  When loading fails the build raises with the whole
    graph in place. *)
Theorem weights_loaded_into_finished_model p include_top w it ishape pooling
        classes ki g model new :
  path_exists w = true ->
  (runs (preset_build p include_top None it ishape pooling classes ki) g
        model new ->
   preset_build p include_top (Some w) it ishape pooling classes ki g
   = (match load_weights model w with
      | inl msg => inl (LoadWeightsFailure msg)
      | inr model' => inr model'
      end, (g ++ new)%list))
  /\ (runs (VGG19 include_top None it ishape pooling classes) g model new ->
      VGG19 include_top (Some w) it ishape pooling classes g
      = (match load_weights model w with
         | inl msg => inl (LoadWeightsFailure msg)
         | inr model' => inr model'
         end, (g ++ new)%list)).
Proof.
  intros Hw. split; intros H.
  - rewrite preset_build_ResNet in H |- *.
    destruct (ResNet_runs_checked _ _ _ _ _ _ _ _ _ _ _ _ _ _ H)
      as (_ & shp & Hs).
    edestruct (preset_stack_fn_runs p ki) as (t & S & Hr).
    unfold runs in H.
    rewrite (ResNet_run _ _ _ _ _ None _ _ _ _ _ _ _ _ _ eq_refl Hs Hr) in H.
    rewrite (ResNet_run _ _ _ _ _ (Some w) _ _ _ _ _ _ _ _ _ Hw Hs Hr).
    cbn [loaded] in H |- *. injection H as <- <-. reflexivity.
  - destruct (VGG19_runs_checked _ _ _ _ _ _ _ _ _ H) as (_ & shp & Hs).
    unfold runs in H.
    rewrite (VGG19_run _ None _ _ _ _ _ _ eq_refl Hs) in H.
    rewrite (VGG19_run _ (Some w) _ _ _ _ _ _ Hw Hs).
    cbn [loaded] in H |- *. injection H as <- <-. reflexivity.
Qed.

(** The arguments of the [models.Model] call that ends a build without
    weights, once every layer call before it has been made. *)
Lemma build_model_arguments p include_top it ishape pooling classes ki g shp :
  obtain_input_shape_1d ishape 32 image_data_format = inr shp ->
  (exists model new,
      preset_build p include_top None it ishape pooling classes ki g
      = (inr model, (g ++ new)%list)
      /\ m_name model = preset_name p
      /\ m_output model = last_out (g ++ new)
      /\ m_inputs model
         = match it with
           | None => [Out (List.length g)]
           | Some t => get_source_inputs (g ++ new) t
           end)
  /\ (exists model new,
        VGG19 include_top None it ishape pooling classes g
        = (inr model, (g ++ new)%list)
        /\ m_name model = "vgg19"
        /\ m_output model = last_out (g ++ new)
        /\ m_inputs model
           = match it with
             | None => [Out (List.length g)]
             | Some t => get_source_inputs (g ++ new) t
             end).
Proof.
  intros Hs. split.
  - rewrite preset_build_ResNet.
    set (inp := input_layers it shp). set (img := image_input it g).
    set (stem := stem_ops (is_v2 p) true ki).
    set (c1 := chain img (List.length (g ++ inp)) stem).
    destruct (run_stages_follows (preset_variant p) ki (stage_plan p)
                (chain_out img (List.length (g ++ inp)) stem)
                ((g ++ inp) ++ c1)%list (preset_plan_nonempty p))
      as (t & S & Hr & Hf).
    assert (Hr' : runs (preset_stack_fn p ki
                          (chain_out img (List.length (g ++ inp)) stem))
                       ((g ++ inp) ++ c1) t S).
    { unfold runs. now rewrite preset_stack_fn_plan. }
    destruct (follows_block_last _ _ Hf) as [Ht Hne].
    rewrite (ResNet_run _ _ _ _ _ None _ _ _ _ _ _ _ _ _ eq_refl Hs Hr').
    fold inp img stem c1.
    set (g2 := (((g ++ inp) ++ c1) ++ S)%list) in *.
    set (c2 := chain t (List.length g2) (tail_ops (is_v2 p))).
    set (x := chain_out t (List.length g2) (tail_ops (is_v2 p))).
    set (head := resnet_head_ops include_top pooling classes).
    assert (Hx : x = last_out (g2 ++ c2))
      by (apply chain_out_last; assumption).
    assert (Hy : chain_out x (List.length (g2 ++ c2)) head
                 = last_out ((g2 ++ c2) ++ chain x (List.length (g2 ++ c2)) head)).
    { apply chain_out_last; [|exact Hx]. now destruct g2. }
    exists (mkModel (model_inputs it
                       ((g2 ++ c2) ++ chain x (List.length (g2 ++ c2)) head)
                       img)
                    (chain_out x (List.length (g2 ++ c2)) head)
                    (preset_name p) None),
           (inp ++ c1 ++ S ++ c2 ++ chain x (List.length (g2 ++ c2)) head)%list.
    assert (E : ((g2 ++ c2) ++ chain x (List.length (g2 ++ c2)) head)%list
                = (g ++ inp ++ c1 ++ S ++ c2
                     ++ chain x (List.length (g2 ++ c2)) head)%list).
    { subst g2. now rewrite <- !app_assoc. }
    split; [|split; [|split]].
    + cbn [loaded]. now rewrite <- E.
    + reflexivity.
    + cbn [m_output]. now rewrite Hy, E.
    + cbn [m_inputs]. rewrite <- E. unfold model_inputs, img.
      destruct it; reflexivity.
  - set (inp := input_layers it shp). set (img := image_input it g).
    set (c1 := chain img (List.length (g ++ inp)) vgg_body_ops).
    set (x := chain_out img (List.length (g ++ inp)) vgg_body_ops).
    set (head := vgg_head_ops include_top pooling classes).
    rewrite (VGG19_run _ None _ _ _ _ _ _ eq_refl Hs).
    fold inp img c1 x head.
    assert (Hx : x = last_out ((g ++ inp) ++ c1)).
    { unfold x, c1, last_out.
      rewrite chain_out_nonempty by discriminate.
      now rewrite (length_app (g ++ inp)), length_chain. }
    assert (Hy : chain_out x (List.length ((g ++ inp) ++ c1)) head
                 = last_out (((g ++ inp) ++ c1)
                               ++ chain x (List.length ((g ++ inp) ++ c1))
                                        head)).
    { apply chain_out_last; [|exact Hx].
      unfold c1. cbn. now destruct (g ++ inp)%list. }
    exists (mkModel (model_inputs it
                       (((g ++ inp) ++ c1)
                          ++ chain x (List.length ((g ++ inp) ++ c1)) head)
                       img)
                    (chain_out x (List.length ((g ++ inp) ++ c1)) head)
                    "vgg19" None),
           (inp ++ c1 ++ chain x (List.length ((g ++ inp) ++ c1)) head)%list.
    assert (E : (((g ++ inp) ++ c1)
                   ++ chain x (List.length ((g ++ inp) ++ c1)) head)%list
                = (g ++ inp ++ c1
                     ++ chain x (List.length ((g ++ inp) ++ c1)) head)%list).
    { now rewrite <- !app_assoc. }
    split; [|split; [|split]].
    + cbn [loaded]. now rewrite <- E.
    + reflexivity.
    + cbn [m_output]. now rewrite Hy, E.
    + cbn [m_inputs]. rewrite <- E. unfold model_inputs, img.
      destruct it; reflexivity.
Qed.

(** X15.  The model a build without weights returns, when it returns one:
    it has the name of the preset, or ["vgg19"]; its output is the output
    of the last layer of the graph the build leaves; its input is the input
    layer the build made when no [input_tensor] is given, and otherwise
    what [get_source_inputs] finds for the given tensor in that graph. *)
Theorem model_of_build p include_top it ishape pooling classes ki g model
        new :
  (runs (preset_build p include_top None it ishape pooling classes ki) g
        model new ->
   m_name model = preset_name p
   /\ m_output model = last_out (g ++ new)
   /\ m_inputs model
      = match it with
        | None => [Out (List.length g)]
        | Some t => get_source_inputs (g ++ new) t
        end)
  /\ (runs (VGG19 include_top None it ishape pooling classes) g model new ->
      m_name model = "vgg19"
      /\ m_output model = last_out (g ++ new)
      /\ m_inputs model
         = match it with
           | None => [Out (List.length g)]
           | Some t => get_source_inputs (g ++ new) t
           end).
Proof.
  split; intros H.
  - assert (Hc : exists shp,
               obtain_input_shape_1d ishape 32 image_data_format = inr shp).
    { pose proof H as H'. rewrite preset_build_ResNet in H'.
      now destruct (ResNet_runs_checked _ _ _ _ _ _ _ _ _ _ _ _ _ _ H'). }
    destruct Hc as (shp & Hs).
    destruct (proj1 (build_model_arguments p include_top it ishape pooling
                       classes ki g shp Hs)) as (m0 & n0 & E & Hm).
    destruct (runs_det _ _ _ _ _ _ H E) as [-> ->]. exact Hm.
  - destruct (VGG19_runs_checked _ _ _ _ _ _ _ _ _ H) as (_ & shp & Hs).
    destruct (proj2 (build_model_arguments p include_top it ishape pooling
                       classes ki g shp Hs)) as (m0 & n0 & E & Hm).
    destruct (runs_det _ _ _ _ _ _ H E) as [-> ->]. exact Hm.
Qed.

(** X16.  The two argument checks come in this order and before any
    layer: when the [weights] argument is accepted and
    [_obtain_input_shape_1d], called with the minimum size 32 and the
    backend's data format, rejects the input shape, [ResNet] and [VGG19]
    raise its error and leave the graph as it was. *)
Theorem shape_checked_before_graph sf preact use_bias nm include_top weights
        it ishape pooling classes ki g msg :
  weights_ok weights = true ->
  obtain_input_shape_1d ishape 32 image_data_format = inl msg ->
  ResNet sf preact use_bias nm include_top weights it ishape pooling classes
         ki g = (inl (InvalidInputShape msg), g)
  /\ VGG19 include_top weights it ishape pooling classes g
     = (inl (InvalidInputShape msg), g).
Proof.
  intros Hw Hs. split.
  - now apply ResNet_bad_shape.
  - now apply VGG19_bad_shape.
Qed.

(** X17.  Every batch normalization of a preset build is on the channel
    axis of the backend's data format, 2 for channels last and 1 for
    channels first, with epsilon 1.001e-5; a [VGG19] build has no batch
    normalization. *)
Theorem batch_norms_on_channel_axis p include_top weights it ishape pooling
        classes ki g :
  batch_norms_on
    (match image_data_format with channels_last => 2 | channels_first => 1 end)
    (signature (added (preset_build p include_top weights it ishape pooling
                                    classes ki) g)) = true
  /\ existsb is_batch_norm
       (signature (added (VGG19 include_top weights it ishape pooling
                                classes) g)) = false.
Proof.
  rewrite preset_build_signature, VGG19_signature.
  destruct (weights_ok weights); [|split; reflexivity].
  destruct (obtain_input_shape_1d ishape 32 image_data_format) as [bad|shp];
    [split; reflexivity|].
  unfold resnet_signature, vgg_signature, batch_norms_on.
  rewrite forallb_app, existsb_app.
  replace (forallb _ (signature (input_layers it shp))) with true
    by (unfold input_layers;
        destruct it as [t|]; [destruct (is_keras_tensor t)|]; reflexivity).
  replace (existsb _ (signature (input_layers it shp))) with false
    by (unfold input_layers;
        destruct it as [t|]; [destruct (is_keras_tensor t)|]; reflexivity).
  cbn [andb orb]. unfold resnet_head_ops, vgg_head_ops, pooling_ops.
  destruct include_top;
    [|destruct (option_string_eqb pooling (Some "avg"));
      [|destruct (option_string_eqb pooling (Some "max"))]].
  all: split; [destruct p|]; vm_compute; try reflexivity;
    destruct image_data_format; reflexivity.
Qed.

End Builders.

(** ** The builders on concrete arguments *)

(** C1 as announced fails on [stack2]: in a pre-activation stack of three
    blocks the projection is on the first unit, and the last unit pools its
    input. *)
Lemma stack2_projects_first_not_last :
  let kinds :=
    shortcut_kinds
      (stack2 channels_last (Out 0) 64 3 2 "he_uniform" "conv2")
      sample_graph in
  kinds = [Projection; Identity; Pooled]
  /\ kinds <> announced_kinds PreActBottleneck 3.
Proof. vm_compute. split; [reflexivity|discriminate]. Qed.

(** C6 as announced fails on [VGG19]: with [include_top] its head is
    flatten and three dense layers, and the graph has no global average
    pooling. *)
Lemma VGG19_head_is_not_average_pooling :
  let new :=
    added (VGG19 channels_last sample_path_exists
                 sample_obtain_input_shape_1d sample_get_source_inputs
                 sample_load_weights true None None None None 1000) [] in
  map l_op (skipn 22 new)
  = [Flatten; Dense 4096 (Some "relu"); Dense 4096 (Some "relu");
     Dense 1000 (Some "softmax")]
  /\ existsb is_average_pooling new = false.
Proof. vm_compute. split; reflexivity. Qed.

(** C7 as announced fails on [block2]: its zero-padding layer is named
    with the suffix ["2_pad"], which is not a listed one. *)
Lemma block2_padding_name_not_listed :
  let names :=
    layer_names
      (added (block2 channels_last (Out 0) 64 3 1 "he_uniform" true
                     "conv2_block1")
             sample_graph) in
  nth_error names 6 = Some "conv2_block1_2_pad"
  /\ names_listed "conv2_block1" names = false.
Proof. vm_compute. split; reflexivity. Qed.

(** [ResNet] and [VGG19] given a weights path that does not exist. *)
Lemma weights_checked_before_graph_witness :
  (forall x g, exists t new,
      runs (preset_stack_fn channels_last R18 "he_uniform" x) g t new)
  /\ (exists msg,
        ResNet channels_last sample_path_exists sample_obtain_input_shape_1d
               sample_get_source_inputs sample_load_weights
               (preset_stack_fn channels_last R18 "he_uniform")
               false true "resnet18" true (Some "missing.h5") None None None
               1000 "he_uniform" []
        = (inl (InvalidWeightsArgument msg), []))
  /\ (exists msg,
        VGG19 channels_last sample_path_exists sample_obtain_input_shape_1d
              sample_get_source_inputs sample_load_weights
              true (Some "missing.h5") None None None 1000 []
        = (inl (InvalidWeightsArgument msg), [])).
Proof.
  split.
  - exact (preset_stack_fn_runs channels_last R18 "he_uniform").
  - exact (weights_checked_before_graph
             channels_last sample_path_exists sample_obtain_input_shape_1d
             sample_get_source_inputs sample_load_weights
             (preset_stack_fn channels_last R18 "he_uniform")
             false true "resnet18" true (Some "missing.h5") None None None
             1000 "he_uniform" []
             (preset_stack_fn_runs channels_last R18 "he_uniform")).
Defined.

(** [ResNet50] without weights on an input of length 64 with 3 channels. *)
Lemma preset_block_count_witness :
  exists model new,
    runs (preset_build channels_last sample_path_exists
                       sample_obtain_input_shape_1d sample_get_source_inputs
                       sample_load_weights R50 false None None
                       (Some [Some 64; Some 3]) (Some "avg") 1000
                       "he_uniform") [] model new
    /\ Z.of_nat (List.length (residual_units new)) = 16.
Proof.
  do 2 eexists.
  assert (H : forall model new,
             runs (preset_build channels_last sample_path_exists
                     sample_obtain_input_shape_1d sample_get_source_inputs
                     sample_load_weights R50 false None None
                     (Some [Some 64; Some 3]) (Some "avg") 1000
                     "he_uniform") [] model new ->
             runs (preset_build channels_last sample_path_exists
                     sample_obtain_input_shape_1d sample_get_source_inputs
                     sample_load_weights R50 false None None
                     (Some [Some 64; Some 3]) (Some "avg") 1000
                     "he_uniform") [] model new
             /\ Z.of_nat (List.length (residual_units new)) = 16).
  { intros model new Hr. split; [exact Hr|].
    exact (proj1 (proj2 (proj2 (preset_block_count
                                  channels_last sample_path_exists
                                  sample_obtain_input_shape_1d
                                  sample_get_source_inputs sample_load_weights
                                  R50)))
             false None None (Some [Some 64; Some 3]) (Some "avg") 1000
             "he_uniform" [] model new Hr). }
  apply H. vm_compute. reflexivity.
Defined.

(** [VGG19] with the existing weights file and a backend tensor as input. *)
Lemma head_of_build_witness :
  weights_ok sample_path_exists (Some "weights.h5") = true
  /\ sample_obtain_input_shape_1d None 32 channels_last = inr [None; Some 3]
  /\ (forall x g, exists t new,
        runs (preset_stack_fn channels_last R50V2 "he_uniform" x) g t new)
  /\ (exists body x, forall include_top pooling classes,
        added (VGG19 channels_last sample_path_exists
                     sample_obtain_input_shape_1d sample_get_source_inputs
                     sample_load_weights include_top (Some "weights.h5")
                     (Some (Raw 7)) None pooling classes) sample_graph
        = (body ++ chain x (List.length (sample_graph ++ body))
                         (vgg_head_ops include_top pooling classes))%list).
Proof.
  split; [reflexivity|]. split; [reflexivity|]. split.
  - exact (preset_stack_fn_runs channels_last R50V2 "he_uniform").
  - exact (proj1 (proj2 (head_of_build
                           channels_last sample_path_exists
                           sample_obtain_input_shape_1d
                           sample_get_source_inputs sample_load_weights
                           (preset_stack_fn channels_last R50V2 "he_uniform")
                           true true "resnet50v2" (Some "weights.h5")
                           (Some (Raw 7)) None "he_uniform" sample_graph
                           [None; Some 3] eq_refl eq_refl
                           (preset_stack_fn_runs channels_last R50V2
                                                 "he_uniform")))).
Defined.

(** The pre-activation [ResNet50V2] without the classification head and
    with max pooling: no normalization in the stem, one after the stacks. *)
Lemma ResNet_stem_and_tail_witness :
  weights_ok sample_path_exists None = true
  /\ sample_obtain_input_shape_1d None 32 channels_last = inr [None; Some 3]
  /\ (forall x g, exists t new,
        runs (preset_stack_fn channels_last R50V2 "he_uniform" x) g t new)
  /\ exists t S,
       added (ResNet channels_last sample_path_exists
                     sample_obtain_input_shape_1d sample_get_source_inputs
                     sample_load_weights
                     (preset_stack_fn channels_last R50V2 "he_uniform")
                     true true "resnet50v2" false None None None (Some "max")
                     1000 "he_uniform") []
       = ([mkLayer (Input [None; Some 3] None) None [];
           mkLayer (ZeroPadding1D 3) (Some "conv1_pad") [Out 0];
           mkLayer (Conv1D 64 7 2 valid None true "he_uniform")
                   (Some "conv1_conv") [Out 1];
           mkLayer (ZeroPadding1D 1) (Some "pool1_pad") [Out 2];
           mkLayer (MaxPooling1D 3 2) (Some "pool1_pool") [Out 3]]
          ++ S
          ++ [mkLayer (BatchNormalization 2 bn_epsilon) (Some "post_bn") [t];
              mkLayer (Activation "relu") (Some "post_relu")
                      [Out (5 + List.length S)];
              mkLayer GlobalMaxPooling1D (Some "max_pool")
                      [Out (6 + List.length S)]])%list.
Proof.
  split; [reflexivity|]. split; [reflexivity|]. split.
  - exact (preset_stack_fn_runs channels_last R50V2 "he_uniform").
  - destruct (ResNet_stem_and_tail
                channels_last sample_path_exists sample_obtain_input_shape_1d
                sample_get_source_inputs sample_load_weights
                (preset_stack_fn channels_last R50V2 "he_uniform")
                true true "resnet50v2" false None None None (Some "max")
                1000 "he_uniform" [] [None; Some 3] eq_refl eq_refl
                (preset_stack_fn_runs channels_last R50V2 "he_uniform"))
      as (t & S & _ & E).
    exists t, S. rewrite E. reflexivity.
Defined.

(** A basic stack of three blocks is the stack of two and one more block. *)
Lemma stack_grows_by_one_block_witness :
  1 <= 2
  /\ stack0 channels_last (Out 0) 64 (2 + 1) 2 "he_uniform" "conv3"
            sample_graph
     = (x' <- stack0 channels_last (Out 0) 64 2 2 "he_uniform" "conv3" ;;
        block0 channels_last x' 64 3 1 false "he_uniform"
               ("conv3" ++ "_block" ++ str (2 + 1))) sample_graph.
Proof.
  assert (H : 1 <= 2) by lia.
  split; [exact H|].
  exact (proj1 (stack_grows_by_one_block channels_last (Out 0) 64 2 2
                  "he_uniform" "conv3" sample_graph H)).
Defined.

(** The three units of a pre-activation stack of three blocks. *)
Lemma stack_units_numbered_witness :
  2 <= 3
  /\ map l_name
         (residual_units
            (added (stack channels_last PreActBottleneck (Out 0) 64 3 2
                          "he_uniform" "conv2") sample_graph))
     = [Some "conv2_block1_out"; Some "conv2_block2_out";
        Some "conv2_block3_out"].
Proof.
  assert (H : 2 <= 3) by lia.
  split; [exact H|].
  exact (stack_units_numbered channels_last PreActBottleneck (Out 0) 64 3 2
           "he_uniform" "conv2" sample_graph H).
Defined.

(** [ResNet50] with its head, on an input of length 64 with 3 channels. *)
Lemma model_name_is_depth_witness :
  exists model new,
    runs (preset_build channels_last sample_path_exists
                       sample_obtain_input_shape_1d sample_get_source_inputs
                       sample_load_weights R50 true None None
                       (Some [Some 64; Some 3]) None 1000 "he_uniform")
         [] model new
    /\ "resnet50"
       = "resnet" ++ str (Z.of_nat (weighted_depth (signature new))) ++ "".
Proof.
  do 2 eexists.
  assert (H : forall model new,
             runs (preset_build channels_last sample_path_exists
                     sample_obtain_input_shape_1d sample_get_source_inputs
                     sample_load_weights R50 true None None
                     (Some [Some 64; Some 3]) None 1000 "he_uniform")
                  [] model new ->
             runs (preset_build channels_last sample_path_exists
                     sample_obtain_input_shape_1d sample_get_source_inputs
                     sample_load_weights R50 true None None
                     (Some [Some 64; Some 3]) None 1000 "he_uniform")
                  [] model new
             /\ "resnet50"
                = "resnet" ++ str (Z.of_nat (weighted_depth (signature new)))
                           ++ "").
  { intros model new Hr. split; [exact Hr|].
    exact (proj1 (model_name_is_depth
                    channels_last sample_path_exists
                    sample_obtain_input_shape_1d sample_get_source_inputs
                    sample_load_weights R50 None None
                    (Some [Some 64; Some 3]) None 1000 "he_uniform" []
                    model new) Hr). }
  apply H. vm_compute. reflexivity.
Defined.

(** [VGG19] without its head and with average pooling. *)
Lemma VGG19_is_five_groups_witness :
  weights_ok sample_path_exists None = true
  /\ sample_obtain_input_shape_1d None 32 channels_last = inr [None; Some 3]
  /\ added (VGG19 channels_last sample_path_exists
                  sample_obtain_input_shape_1d sample_get_source_inputs
                  sample_load_weights false None None None (Some "avg") 1000)
           []
     = (input_layers None [None; Some 3]
        ++ chain (image_input None [])
                 (List.length ([] ++ input_layers None [None; Some 3]))
                 (vgg_group 1 64 2 ++ vgg_group 2 128 2 ++ vgg_group 3 256 4
                  ++ vgg_group 4 512 4 ++ vgg_group 5 512 4
                  ++ vgg_head_ops false (Some "avg") 1000))%list.
Proof.
  split; [reflexivity|]. split; [reflexivity|].
  exact (VGG19_is_five_groups
           channels_last sample_path_exists sample_obtain_input_shape_1d
           sample_get_source_inputs sample_load_weights false None None None
           (Some "avg") 1000 [] [None; Some 3] eq_refl eq_refl).
Defined.

(** [ResNet18] without its head, and the weights file that exists. *)
Lemma weights_loaded_into_finished_model_witness :
  sample_path_exists "weights.h5" = true
  /\ exists model new,
       runs (preset_build channels_last sample_path_exists
                          sample_obtain_input_shape_1d
                          sample_get_source_inputs sample_load_weights R18
                          false None None None None 1000 "he_uniform")
            [] model new
       /\ preset_build channels_last sample_path_exists
                       sample_obtain_input_shape_1d sample_get_source_inputs
                       sample_load_weights R18 false (Some "weights.h5") None
                       None None 1000 "he_uniform" []
          = (match sample_load_weights model "weights.h5" with
             | inl msg => inl (LoadWeightsFailure msg)
             | inr model' => inr model'
             end, ([] ++ new)%list).
Proof.
  split; [reflexivity|]. do 2 eexists.
  assert (H : forall model new,
             runs (preset_build channels_last sample_path_exists
                     sample_obtain_input_shape_1d sample_get_source_inputs
                     sample_load_weights R18 false None None None None 1000
                     "he_uniform") [] model new ->
             runs (preset_build channels_last sample_path_exists
                     sample_obtain_input_shape_1d sample_get_source_inputs
                     sample_load_weights R18 false None None None None 1000
                     "he_uniform") [] model new
             /\ preset_build channels_last sample_path_exists
                  sample_obtain_input_shape_1d sample_get_source_inputs
                  sample_load_weights R18 false (Some "weights.h5") None
                  None None 1000 "he_uniform" []
                = (match sample_load_weights model "weights.h5" with
                   | inl msg => inl (LoadWeightsFailure msg)
                   | inr model' => inr model'
                   end, ([] ++ new)%list)).
  { intros model new Hr. split; [exact Hr|].
    exact (proj1 (weights_loaded_into_finished_model
                    channels_last sample_path_exists
                    sample_obtain_input_shape_1d sample_get_source_inputs
                    sample_load_weights R18 false "weights.h5" None None None
                    1000 "he_uniform" [] model new eq_refl) Hr). }
  apply H. vm_compute. reflexivity.
Defined.

(** [ResNet18] without weights, without its head and without input
    tensor. *)
Lemma model_of_build_witness :
  exists model new,
    runs (preset_build channels_last sample_path_exists
                       sample_obtain_input_shape_1d sample_get_source_inputs
                       sample_load_weights R18 false None None None None 1000
                       "he_uniform") [] model new
    /\ m_name model = "resnet18"
    /\ m_output model = last_out ([] ++ new)
    /\ m_inputs model = [Out 0].
Proof.
  do 2 eexists.
  assert (H : forall model new,
             runs (preset_build channels_last sample_path_exists
                     sample_obtain_input_shape_1d sample_get_source_inputs
                     sample_load_weights R18 false None None None None 1000
                     "he_uniform") [] model new ->
             runs (preset_build channels_last sample_path_exists
                     sample_obtain_input_shape_1d sample_get_source_inputs
                     sample_load_weights R18 false None None None None 1000
                     "he_uniform") [] model new
             /\ m_name model = "resnet18"
             /\ m_output model = last_out ([] ++ new)
             /\ m_inputs model = [Out 0]).
  { intros model new Hr. split; [exact Hr|].
    exact (proj1 (model_of_build
                    channels_last sample_path_exists
                    sample_obtain_input_shape_1d sample_get_source_inputs
                    sample_load_weights R18 false None None None 1000
                    "he_uniform" [] model new) Hr). }
  apply H. vm_compute. reflexivity.
Defined.

(** An input of length 16, shorter than the minimum size. *)
Lemma shape_checked_before_graph_witness :
  weights_ok sample_path_exists None = true
  /\ sample_obtain_input_shape_1d (Some [Some 16; Some 3]) 32 channels_last
     = inl "Input size must be at least min_size"
  /\ VGG19 channels_last sample_path_exists sample_obtain_input_shape_1d
           sample_get_source_inputs sample_load_weights true None None
           (Some [Some 16; Some 3]) None 1000 sample_graph
     = (inl (InvalidInputShape "Input size must be at least min_size"),
        sample_graph).
Proof.
  split; [reflexivity|]. split; [reflexivity|].
  exact (proj2 (shape_checked_before_graph
                  channels_last sample_path_exists
                  sample_obtain_input_shape_1d sample_get_source_inputs
                  sample_load_weights
                  (preset_stack_fn channels_last R18 "he_uniform")
                  false true "resnet18" true None None
                  (Some [Some 16; Some 3]) None 1000 "he_uniform"
                  sample_graph "Input size must be at least min_size"
                  eq_refl eq_refl)).
Defined.
